(** * StoryBot (src/bot.py): a shallow embedding of the session engine

    The Telegram story bot keeps one dictionary per user
    ([context.user_data]) and mutates it from its handlers.  This file
    embeds the handlers of [src/bot.py] as state-passing functions over
    that dictionary, with the messages sent through the chat transport
    recorded as a trace, and proves properties of the session engine,
    the template parser, the generation call and the export. *)

From Stdlib Require Import NArith ZArith String Ascii Strings.Byte List Lia Bool.
From Stdlib Require Import Numbers.DecimalString.
From stdpp Require Import base option list.

Local Open Scope N_scope.
Local Set Warnings "-register-all".

(** ** Python strings

    A [str] is a sequence of Unicode code points. *)

Abbreviation pystr := (list N).

Module PyStr.

(** Literals are written as in the source file, which is UTF-8 encoded:
    [lit] decodes the bytes of a Rocq string literal into code points. *)
Fixpoint utf8_decode (pending : nat) (acc : N) (bs : list N) : pystr :=
  match bs with
  | [] => []
  | c :: rest =>
      match pending with
      | O =>
          if c <? 0x80 then c :: utf8_decode 0 0 rest
          else if c <? 0xE0 then utf8_decode 1 (N.land c 0x1F) rest
          else if c <? 0xF0 then utf8_decode 2 (N.land c 0x0F) rest
          else utf8_decode 3 (N.land c 0x07) rest
      | S p =>
          let acc' := acc * 64 + N.land c 0x3F in
          match p with
          | O => acc' :: utf8_decode 0 0 rest
          | S _ => utf8_decode p acc' rest
          end
      end
  end.

(** The only escape sequence of the source's literals is the newline,
    a backslash (92) followed by the letter n (110). *)
Fixpoint unescape (s : pystr) : pystr :=
  match s with
  | 92 :: 110 :: rest => 10 :: unescape rest
  | c :: rest => c :: unescape rest
  | [] => []
  end.

Definition lit (s : string) : pystr :=
  unescape (utf8_decode 0 0 (List.map N_of_ascii (list_ascii_of_string s))).

(** [str.encode('utf-8')]: lone surrogates cannot be encoded. *)
Definition byte_of (n : N) : byte := default x00 (Byte.of_N n).

Definition encode_char (c : N) : option (list byte) :=
  if c <? 0x80 then Some [byte_of c]
  else if c <? 0x800 then
    Some [byte_of (0xC0 + c / 64); byte_of (0x80 + c mod 64)]
  else if (0xD800 <=? c) && (c <=? 0xDFFF) then None
  else if c <? 0x10000 then
    Some [byte_of (0xE0 + c / 4096); byte_of (0x80 + (c / 64) mod 64);
          byte_of (0x80 + c mod 64)]
  else if c <? 0x110000 then
    Some [byte_of (0xF0 + c / 262144); byte_of (0x80 + (c / 4096) mod 64);
          byte_of (0x80 + (c / 64) mod 64); byte_of (0x80 + c mod 64)]
  else None.

Fixpoint encode_utf8 (s : pystr) : option (list byte) :=
  match s with
  | [] => Some []
  | c :: s' =>
      match encode_char c, encode_utf8 s' with
      | Some bs, Some rest => Some (bs ++ rest)
      | _, _ => None
      end
  end.

(** [str.isspace] on one code point (CPython's [_PyUnicode_IsWhitespace]). *)
Definition isspace (c : N) : bool :=
  ((0x09 <=? c) && (c <=? 0x0D)) || ((0x1C <=? c) && (c <=? 0x20))
  || (c =? 0x85) || (c =? 0xA0) || (c =? 0x1680)
  || ((0x2000 <=? c) && (c <=? 0x200A))
  || (c =? 0x2028) || (c =? 0x2029) || (c =? 0x202F) || (c =? 0x205F)
  || (c =? 0x3000).

Fixpoint lstrip (s : pystr) : pystr :=
  match s with
  | [] => []
  | c :: s' => if isspace c then lstrip s' else s
  end.

Definition rstrip (s : pystr) : pystr := rev (lstrip (rev s)).

(** [s.strip()] *)
Definition strip (s : pystr) : pystr := rstrip (lstrip s).

(** [s.split(sep)] for a one-character separator: never an empty list. *)
Fixpoint split_on (sep : N) (s : pystr) : list pystr :=
  match s with
  | [] => [[]]
  | c :: s' =>
      if c =? sep then [] :: split_on sep s'
      else match split_on sep s' with
           | [] => [[c]]
           | w :: ws => (c :: w) :: ws
           end
  end.

(** [s.split(sep, 1)]: at most one cut, at the first separator. *)
Fixpoint split_once (sep : N) (s : pystr) : list pystr :=
  match s with
  | [] => [[]]
  | c :: s' =>
      if c =? sep then [[]; s']
      else match split_once sep s' with
           | w :: ws => (c :: w) :: ws
           | [] => [[c]]
           end
  end.

(** [s.startswith(prefix)] *)
Fixpoint startswith (prefix s : pystr) : bool :=
  match prefix, s with
  | [], _ => true
  | _ :: _, [] => false
  | p :: prefix', c :: s' => (p =? c) && startswith prefix' s'
  end.

(** [s.replace(old, new)] for a non-empty [old]: occurrences are replaced
    left to right and do not overlap; [skip] counts the characters of a
    replaced occurrence still to be passed over. *)
Fixpoint replace_from (old new : pystr) (skip : nat) (s : pystr) : pystr :=
  match s with
  | [] => []
  | c :: s' =>
      match skip with
      | S k => replace_from old new k s'
      | O =>
          if startswith old s
          then new ++ replace_from old new (length old - 1) s'
          else c :: replace_from old new 0 s'
      end
  end.

Definition replace (old new s : pystr) : pystr := replace_from old new 0 s.

(** [sep.join(parts)] *)
Fixpoint join (sep : pystr) (parts : list pystr) : pystr :=
  match parts with
  | [] => []
  | [p] => p
  | p :: rest => p ++ sep ++ join sep rest
  end.

(** [s.split()]: the maximal runs of non-whitespace characters.  [cur] is
    the word being read, reversed. *)
Fixpoint split_ws_from (cur : pystr) (s : pystr) : list pystr :=
  match s with
  | [] => match cur with [] => [] | _ => [rev cur] end
  | c :: s' =>
      if isspace c
      then match cur with
           | [] => split_ws_from [] s'
           | _ => rev cur :: split_ws_from [] s'
           end
      else split_ws_from (c :: cur) s'
  end.

Definition split_ws (s : pystr) : list pystr := split_ws_from [] s.

(** [str(n)] for a non-negative integer. *)
Definition str_of_nat (n : nat) : pystr :=
  lit (NilZero.string_of_uint (Nat.to_uint n)).

(** [c * n] for a one-character string. *)
Definition repeat_char (c : N) (n : nat) : pystr := repeat c n.

(** Truth value of a string: non-empty. *)
Definition truthy (s : pystr) : bool :=
  match s with [] => false | _ => true end.

End PyStr.

Import PyStr.

(** ** Python values of the program *)

(** An insertion-ordered [dict] with string keys: assigning to a key that
    is present keeps its position, a new key goes to the end. *)
Abbreviation pydict V := (list (pystr * V)).

Fixpoint dict_get {V} (k : pystr) (d : pydict V) : option V :=
  match d with
  | [] => None
  | (k', v) :: d' => if bool_decide (k' = k) then Some v else dict_get k d'
  end.

Fixpoint dict_set {V} (k : pystr) (v : V) (d : pydict V) : pydict V :=
  match d with
  | [] => [(k, v)]
  | (k', v') :: d' =>
      if bool_decide (k' = k) then (k, v) :: d' else (k', v') :: dict_set k v d'
  end.

(** Exceptions: the class and [str(e)]. *)
Inductive ExcClass :=
| Exception
| KeyError
| IndexError
| TypeError
| UnicodeEncodeError
| RequestsTimeout            (* requests.exceptions.Timeout *)
| RequestsRequestException.  (* any other requests.exceptions.RequestException *)

Record PyExc := mkExc { exc_class : ExcClass; exc_str : pystr }.

Inductive result (A : Type) :=
| Return (a : A)
| Raise (e : PyExc).
Arguments Return {A} a.
Arguments Raise {A} e.

Definition result_bind {A B} (r : result A) (k : A -> result B) : result B :=
  match r with
  | Return a => k a
  | Raise e => Raise e
  end.

(** [repr] of a string, which is what [str] of a [KeyError] prints: in
    single quotes, or in double quotes (34) when the string has a single
    quote (39) and no double one; the quote in use and the backslash are
    escaped, tab, newline and return are written with their letter, the
    other control characters in hexadecimal.  Code points from 128 on
    are kept as they are, as [repr] keeps the printable ones. *)
Definition hex_digit (n : N) : N := if n <? 10 then 48 + n else 87 + n.

Definition repr_char (quote c : N) : pystr :=
  if (c =? 92) || (c =? quote) then [92; c]
  else if c =? 9 then [92; 116]
  else if c =? 10 then [92; 110]
  else if c =? 13 then [92; 114]
  else if (c <? 32) || (c =? 127)
       then [92; 120; hex_digit (c / 16); hex_digit (c mod 16)]
  else [c].

Definition py_repr (s : pystr) : pystr :=
  let quote :=
    if existsb (N.eqb 39) s && negb (existsb (N.eqb 34) s) then 34 else 39 in
  quote :: concat (List.map (repr_char quote) s) ++ [quote].

Definition key_error (k : pystr) : PyExc := mkExc KeyError (py_repr k).

(** ** Story templates (lines 79-143) *)

Record template := mkTemplate { title : pystr; premise : pystr }.

(** The local variables of the loop of [parse_templates]. *)
Record parse_state := mkParse {
  templates_ : pydict template;
  current_template : option pystr;
  current_premise : list pystr }.

(** [if current_template and current_premise: templates[current_template] =
    {"title": templates[current_template]["title"],
     "premise": " ".join(current_premise).strip()}] *)
Definition flush_template (st : parse_state) : result (pydict template) :=
  match current_template st, current_premise st with
  | Some k, _ :: _ =>
      if truthy k then
        match dict_get k (templates_ st) with
        | Some t =>
            Return (dict_set k
                      (mkTemplate (title t)
                                  (strip (join (lit " ") (current_premise st))))
                      (templates_ st))
        | None => Raise (key_error k)
        end
      else Return (templates_ st)
  | _, _ => Return (templates_ st)
  end.

(** One iteration of [for line in lines]. *)
Definition parse_line (st : parse_state) (line0 : pystr) : result parse_state :=
  let line := strip line0 in
  if startswith (lit "TEMPLATE") line then
    result_bind (flush_template st) (fun templates =>
    match split_once 58 line with
    | [part0; part1] =>
        let template_num := strip (replace (lit "TEMPLATE") [] part0) in
        let current := lit "template_" ++ template_num in
        let title := strip part1 in
        Return (mkParse (dict_set current (mkTemplate title []) templates)
                        (Some current) [])
    | _ => Return (mkParse templates (current_template st) (current_premise st))
    end)
  else if truthy line && from_option truthy false (current_template st) then
    Return (mkParse (templates_ st) (current_template st)
                    (current_premise st ++ [line]))
  else Return st.

Fixpoint parse_lines (st : parse_state) (lines : list pystr) : result parse_state :=
  match lines with
  | [] => Return st
  | line :: rest => result_bind (parse_line st line) (fun st' => parse_lines st' rest)
  end.

(** The dictionary built by the loop and the final flush, before the
    length test of the [return] statement. *)
Definition parsed_templates (response : pystr) : result (pydict template) :=
  let lines := split_on 10 (strip response) in
  result_bind (parse_lines (mkParse [] None []) lines) flush_template.

Definition default_templates : pydict template :=
  [ (lit "template_1", mkTemplate (lit "The Beginning") (lit "Your adventure starts here..."));
    (lit "template_2", mkTemplate (lit "New Horizons") (lit "A new challenge appears..."));
    (lit "template_3", mkTemplate (lit "The Journey") (lit "An epic tale unfolds...")) ].

Definition parse_templates (response : pystr) : result (pydict template) :=
  result_bind (parsed_templates response) (fun templates =>
  Return (if (3 <=? length templates)%nat then templates else default_templates)).

(** ** The generation call (lines 48-77)

    The body of an HTTP response, as [response.json()] gives it. *)
Inductive json :=
| JNull
| JBool (b : bool)
| JInt (z : Z)
| JFloat (literal : pystr)
| JStr (s : pystr)
| JArr (items : list json)
| JObj (members : pydict json).

Definition type_name (v : json) : pystr :=
  match v with
  | JNull => lit "NoneType"
  | JBool _ => lit "bool"
  | JInt _ => lit "int"
  | JFloat _ => lit "float"
  | JStr _ => lit "str"
  | JArr _ => lit "list"
  | JObj _ => lit "dict"
  end.

Definition not_subscriptable (v : json) : PyExc :=
  mkExc (TypeError)
           (lit "'" ++ type_name v ++ lit "' object is not subscriptable").

(** [v[key]] for a string key. *)
Definition getitem_str (v : json) (key : pystr) : result json :=
  match v with
  | JObj members =>
      match dict_get key members with
      | Some x => Return x
      | None => Raise (key_error key)
      end
  | JArr _ =>
      Raise (mkExc (TypeError)
                       (lit "list indices must be integers or slices, not str"))
  | JStr _ =>
      Raise (mkExc (TypeError)
                       (lit "string indices must be integers, not 'str'"))
  | _ => Raise (not_subscriptable v)
  end.

(** [v[0]]; the keys of a JSON object are strings, so the key [0] is
    never present. *)
Definition getitem_0 (v : json) : result json :=
  match v with
  | JArr (x :: _) => Return x
  | JArr [] => Raise (mkExc (IndexError) (lit "list index out of range"))
  | JStr (c :: _) => Return (JStr [c])
  | JStr [] => Raise (mkExc (IndexError) (lit "string index out of range"))
  | JObj _ => Raise (mkExc (KeyError) (lit "0"))
  | _ => Raise (not_subscriptable v)
  end.

Inductive role := user | assistant.

Record msg := mkMsg { msg_role : role; content : pystr }.

Definition role_str (r : role) : pystr :=
  match r with user => lit "user" | assistant => lit "assistant" end.

Definition json_of_msg (m : msg) : json :=
  JObj [(lit "role", JStr (role_str (msg_role m)));
        (lit "content", JStr (content m))].

Definition llm_payload (messages : list msg) (system_prompt : pystr)
    (max_tokens : nat) : json :=
  JObj [ (lit "model", JStr (lit "accounts/fireworks/models/llama-v3p1-8b-instruct"));
         (lit "messages",
          JArr ([JObj [(lit "role", JStr (lit "system"));
                       (lit "content", JStr system_prompt)]]
                ++ List.map json_of_msg messages));
         (lit "max_tokens", JInt (Z.of_nat max_tokens));
         (lit "temperature", JFloat (lit "0.9"));
         (lit "top_p", JFloat (lit "0.95"));
         (lit "frequency_penalty", JFloat (lit "0.5"));
         (lit "presence_penalty", JFloat (lit "0.5")) ].

(** [requests.post(FIREWORKS_URL, json=payload, headers=headers,
    timeout=30)], [raise_for_status()] and [response.json()] are the
    collaborator [post]: the parsed body, or the exception raised. *)
Definition call_llm (post : json -> result json) (messages : list msg)
    (system_prompt : pystr) (max_tokens : nat) : result json :=
  let payload := llm_payload messages system_prompt max_tokens in
  let body :=
    result_bind (post payload) (fun result =>
    result_bind (getitem_str result (lit "choices")) (fun choices =>
    result_bind (getitem_0 choices) (fun choice =>
    result_bind (getitem_str choice (lit "message")) (fun message =>
    getitem_str message (lit "content"))))) in
  match body with
  | Return text => Return text
  | Raise e =>
      match exc_class e with
      | RequestsTimeout =>
          Raise (mkExc (Exception)
                           (lit "Request timed out. Please try again."))
      | RequestsRequestException =>
          Raise (mkExc (Exception)
                           (lit "Connection error: " ++ exc_str e))
      | KeyError =>
          Raise (mkExc (Exception)
                           (lit "Unexpected response format from AI."))
      | _ => Raise e
      end
  end.

(** ** The session: [context.user_data]

    The dictionary is only ever read and written at nine literal keys,
    each with values of one type; a field is [None] when its key is
    absent from the dictionary. *)
Record user_data := mkUserData {
  genre : option pystr;
  mode : option pystr;
  templates : option (pydict template);
  template_ : option template;                (* key 'template' *)
  story_history : option (list msg);
  character_name : option pystr;
  character_traits : option pystr;
  character_background : option pystr;
  last_failed_message : option pystr }.

(** [user_data.clear()] leaves the empty dictionary. *)
Definition cleared : user_data :=
  mkUserData None None None None None None None None None.

Definition set_genre (v : option pystr) (d : user_data) : user_data :=
  mkUserData v (mode d) (templates d) (template_ d) (story_history d)
    (character_name d) (character_traits d) (character_background d)
    (last_failed_message d).

Definition set_mode (v : option pystr) (d : user_data) : user_data :=
  mkUserData (genre d) v (templates d) (template_ d) (story_history d)
    (character_name d) (character_traits d) (character_background d)
    (last_failed_message d).

Definition set_templates (v : option (pydict template)) (d : user_data) : user_data :=
  mkUserData (genre d) (mode d) v (template_ d) (story_history d)
    (character_name d) (character_traits d) (character_background d)
    (last_failed_message d).

Definition set_template (v : option template) (d : user_data) : user_data :=
  mkUserData (genre d) (mode d) (templates d) v (story_history d)
    (character_name d) (character_traits d) (character_background d)
    (last_failed_message d).

Definition set_story_history (v : option (list msg)) (d : user_data) : user_data :=
  mkUserData (genre d) (mode d) (templates d) (template_ d) v
    (character_name d) (character_traits d) (character_background d)
    (last_failed_message d).

Definition set_character_name (v : option pystr) (d : user_data) : user_data :=
  mkUserData (genre d) (mode d) (templates d) (template_ d) (story_history d)
    v (character_traits d) (character_background d) (last_failed_message d).

Definition set_character_traits (v : option pystr) (d : user_data) : user_data :=
  mkUserData (genre d) (mode d) (templates d) (template_ d) (story_history d)
    (character_name d) v (character_background d) (last_failed_message d).

Definition set_character_background (v : option pystr) (d : user_data) : user_data :=
  mkUserData (genre d) (mode d) (templates d) (template_ d) (story_history d)
    (character_name d) (character_traits d) v (last_failed_message d).

Definition set_last_failed_message (v : option pystr) (d : user_data) : user_data :=
  mkUserData (genre d) (mode d) (templates d) (template_ d) (story_history d)
    (character_name d) (character_traits d) (character_background d) v.

(** ** The chat transport

    What a handler sends is recorded in order; the transport's calls are
    taken to succeed. *)
Abbreviation button := (pystr * pystr)%type.   (* label, callback_data *)
Abbreviation keyboard := (list (list button)).

Inductive Action :=
| Answer (text : option pystr)                       (* query.answer *)
| EditMessageText (text : pystr) (reply_markup : option keyboard) (markdown : bool)
| ReplyText (text : pystr) (reply_markup : option keyboard) (markdown : bool)
| SendChatAction (action : pystr)
| DeleteStatusMessage                                (* status_message.delete *)
| ReplyDocument (document : list byte) (filename caption : pystr) (markdown : bool)
| LlmRequest (messages : list msg) (system_prompt : pystr) (max_tokens : nat).

(** ** Handlers as computations

    A handler runs on the session, may change it, sends through the
    transport, and returns or raises. *)
Record run (A : Type) := mkRun {
  res : result A;
  final : user_data;
  sent : list Action }.
Arguments mkRun {A} res final sent.
Arguments res {A} r.
Arguments final {A} r.
Arguments sent {A} r.

Definition M (A : Type) : Type := user_data -> run A.

#[global] Instance M_ret : MRet M := fun A a d => mkRun (Return a) d [].

#[global] Instance M_bind : MBind M := fun A B k m d =>
  match m d with
  | mkRun (Return a) d' out =>
      match k a d' with
      | mkRun r d'' out' => mkRun r d'' (out ++ out')
      end
  | mkRun (Raise e) d' out => mkRun (Raise e) d' out
  end.

Definition get : M user_data := fun d => mkRun (Return d) d [].
Definition modify (f : user_data -> user_data) : M unit :=
  fun d => mkRun (Return tt) (f d) [].
Definition emit (a : Action) : M unit := fun d => mkRun (Return tt) d [a].
Definition raise {A} (e : PyExc) : M A := fun d => mkRun (Raise e) d [].

(** [try: body except Exception as e: handler(e)]; every class of
    [ExcClass] derives from [Exception]. *)
Definition try_except {A} (body : M A) (handler : PyExc -> M A) : M A :=
  fun d =>
    match body d with
    | mkRun (Return a) d' out => mkRun (Return a) d' out
    | mkRun (Raise e) d' out =>
        match handler e d' with
        | mkRun r d'' out' => mkRun r d'' (out ++ out')
        end
    end.

(** [context.user_data['story_history']] *)
Definition the_story_history : M (list msg) :=
  d ← get;
  match story_history d with
  | Some h => mret h
  | None => raise (key_error (lit "story_history"))
  end.

(** [context.user_data['story_history'].append(m)] *)
Definition history_append (m : msg) : M unit :=
  h ← the_story_history;
  modify (set_story_history (Some (h ++ [m]))).

(** [context.user_data['character_name']] *)
Definition the_character_name : M pystr :=
  d ← get;
  match character_name d with
  | Some n => mret n
  | None => raise (key_error (lit "character_name"))
  end.

(** The generation call as the handlers see it: [call_llm] returns the
    text of the completion or raises.  [llm] is what the service does at
    this call. *)
Definition call_llm_text (llm : result pystr) (messages : list msg)
    (system_prompt : pystr) (max_tokens : nat) : M pystr :=
  emit (LlmRequest messages system_prompt max_tokens);;
  match llm with
  | Return text => mret text
  | Raise e => raise e
  end.

(** ** Constants (lines 30-46) *)

Definition GENRES : pydict pystr :=
  [ (lit "fantasy", lit "🐉 Fantasy");
    (lit "scifi", lit "🚀 Sci-Fi");
    (lit "mystery", lit "🔍 Mystery");
    (lit "horror", lit "👻 Horror");
    (lit "romance", lit "💕 Romance");
    (lit "adventure", lit "⚔️ Adventure") ].

Record mode_info := mkMode { mode_name : pystr; mode_desc : pystr }.

Definition STORY_MODES : pydict mode_info :=
  [ (lit "guided", mkMode (lit "📖 Tell Me a Story") (lit "AI leads, you react"));
    (lit "adventure", mkMode (lit "🎮 Adventure Mode") (lit "You make choices"));
    (lit "cowrite", mkMode (lit "✍️ Co-Write") (lit "Take turns writing")) ].

Definition WAITING_NAME : Z := 0.
Definition WAITING_TRAITS : Z := 1.
Definition WAITING_BACKGROUND : Z := 2.
Definition ConversationHandler_END : Z := -1.

(** [d[k]] on a constant table. *)
Definition table_item {V} (k : pystr) (d : pydict V) : M V :=
  match dict_get k d with
  | Some v => mret v
  | None => raise (key_error k)
  end.

(** ** Story engine (lines 145-149, 449-650) *)

Definition is_user (m : msg) : bool :=
  match msg_role m with user => true | assistant => false end.

(** [get_story_progress]: the number of user turns in the history. *)
Definition get_story_progress (d : user_data) : nat :=
  let history := default [] (story_history d) in
  length (List.filter is_user history).

Definition build_system_prompt (d : user_data) (genre mode : pystr) : pystr :=
  let base_prompt :=
    lit "You are a creative storyteller specializing in " ++ genre ++ lit " stories." in
  let base_prompt :=
    if bool_decide (mode = lit "guided") then
      base_prompt ++ lit "\nYou lead the story. Create engaging narratives that respond to the user's reactions. Keep responses to 2-3 paragraphs."
    else if bool_decide (mode = lit "adventure") then
      base_prompt ++ lit "\nPresent the user with meaningful choices. End each response with 2-3 options for what they can do next. Format like: 'What do you do? A) ... B) ... C) ...'"
    else if bool_decide (mode = lit "cowrite") then
      base_prompt ++ lit "\nYou and the user take turns writing the story. Build on what they write, then pause for their next contribution. Keep responses to 1-2 paragraphs."
    else base_prompt in
  let base_prompt :=
    match character_name d with
    | Some name =>
        let traits := default (lit "mysterious") (character_traits d) in
        let background := default (lit "an adventurer") (character_background d) in
        base_prompt ++ lit "\n\nThe protagonist is " ++ name ++ lit ", who is "
          ++ traits ++ lit ". Background: " ++ background
          ++ lit ". Keep this character consistent throughout the story."
    | None => base_prompt
    end in
  let base_prompt :=
    match template_ d with
    | Some template => base_prompt ++ lit "\n\nStory premise: " ++ premise template
    | None => base_prompt
    end in
  base_prompt ++ lit "\n\nBe descriptive, engaging, and immersive. Keep the user engaged!".

Definition loading_messages : list pystr :=
  [ lit "✍️ Crafting your story...";
    lit "🎨 Painting the scene...";
    lit "🌟 Weaving the narrative...";
    lit "📖 Turning the page...";
    lit "✨ Conjuring the tale..." ].

(** [if history and history[-1]['role'] == 'user': history.pop()] *)
Definition pop_last_user : M unit :=
  h ← the_story_history;
  match last h with
  | Some m => if is_user m then modify (set_story_history (Some (removelast h)))
              else mret tt
  | None => mret tt
  end.

(** The footer under a story beat: the turn and the number of words. *)
Definition footer (turn : nat) (story_text : pystr) : pystr :=
  lit "\n\n_Turn " ++ str_of_nat turn ++ lit " • "
    ++ str_of_nat (length (split_ws story_text)) ++ lit " words_".

Definition generation_failed_text (e : PyExc) : pystr :=
  lit "⚠️ *Oops! Story generation failed.*\n\n"
    ++ lit "_" ++ exc_str e ++ lit "_\n\n"
    ++ lit "Your progress is saved. You can:\n"
    ++ lit "• Try again (I'll remember your last message)\n"
    ++ lit "• Save what you have so far\n"
    ++ lit "• Start a fresh story".

Definition generate_story (llm : result pystr) (user_message : pystr) : M unit :=
  d ← get;
  (* Initialize story if first message *)
  match story_history d with
  | None =>
      modify (set_story_history (Some []));;
      modify (set_genre (Some (lit "adventure")));;
      modify (set_mode (Some (lit "guided")))
  | Some _ => mret tt
  end;;
  (* Add user message to history *)
  history_append (mkMsg user user_message);;
  d ← get;
  let turn := get_story_progress d in
  let loading_msg :=
    default [] (loading_messages !! (turn mod length loading_messages)%nat) in
  emit (ReplyText (loading_msg ++ lit "\n_Turn " ++ str_of_nat turn ++ lit "_")
                  None true);;
  emit (SendChatAction (lit "typing"));;
  try_except
    (d ← get;
     let genre := default (lit "adventure") (genre d) in
     let mode := default (lit "guided") (mode d) in
     let system_prompt := build_system_prompt d genre mode in
     history ← the_story_history;
     story_text ← call_llm_text llm history system_prompt 500;
     (* Add assistant response to history *)
     history_append (mkMsg assistant story_text);;
     emit DeleteStatusMessage;;
     let keyboard :=
       [ [(lit "💾 Save Story", lit "save_story")];
         [(lit "🔄 New Story", lit "new_story")];
         [(lit "❓ Help", lit "show_help")] ] in
     emit (ReplyText (story_text ++ footer turn story_text) (Some keyboard) true))
    (fun e =>
     emit DeleteStatusMessage;;
     (* Remove last user message from history since generation failed *)
     pop_last_user;;
     let keyboard :=
       [ [(lit "🔄 Retry", lit "retry_last")];
         [(lit "💾 Save Progress", lit "save_story")];
         [(lit "🆕 New Story", lit "new_story")] ] in
     emit (ReplyText (generation_failed_text e) (Some keyboard) true);;
     (* Store last failed message for retry *)
     modify (set_last_failed_message (Some user_message))).

Definition retry_last (llm : result pystr) : M unit :=
  emit (Answer (Some (lit "Retrying... 🔄")));;
  d ← get;
  let last_message := last_failed_message d in
  if negb (from_option truthy false last_message) then
    emit (EditMessageText
            (lit "No message to retry. Please type a new message to continue!")
            None false)
  else
    (* Add back to history *)
    history_append (mkMsg user (default [] last_message));;
    emit (EditMessageText (lit "🔄 Retrying story generation...\n_Please wait..._")
                          None true);;
    try_except
      (d ← get;
       let genre := default (lit "adventure") (genre d) in
       let mode := default (lit "guided") (mode d) in
       let system_prompt := build_system_prompt d genre mode in
       history ← the_story_history;
       story_text ← call_llm_text llm history system_prompt 500;
       history_append (mkMsg assistant story_text);;
       (* Clear failed message *)
       modify (set_last_failed_message None);;
       d ← get;
  let turn := get_story_progress d in
       let keyboard :=
         [ [(lit "💾 Save Story", lit "save_story")];
           [(lit "🔄 New Story", lit "new_story")] ] in
       emit (EditMessageText
               (lit "✅ *Success!*\n\n" ++ story_text ++ footer turn story_text)
               (Some keyboard) true))
      (fun e =>
       (* Remove from history again *)
       pop_last_user;;
       let keyboard :=
         [ [(lit "🔄 Try Again", lit "retry_last")];
           [(lit "🆕 Give Up, New Story", lit "new_story")] ] in
       emit (EditMessageText
               (lit "❌ *Still failed:* " ++ exc_str e ++ lit "\n\n"
                  ++ lit "The AI service might be having issues. Try again or start fresh.")
               (Some keyboard) true)).

(** ** Export (lines 652-708) *)

Definition rule (c : N) : pystr := repeat_char c 50.

(** The loop [for i, msg in enumerate(history, 1)]. *)
Fixpoint export_turns (i : nat) (history : list msg) : pystr :=
  match history with
  | [] => []
  | m :: rest =>
      (if is_user m
       then lit "🧑 YOU (Turn " ++ str_of_nat ((i + 1) / 2) ++ lit "):\n"
              ++ content m ++ lit "\n\n"
       else lit "📖 STORY:\n" ++ content m ++ lit "\n\n")
      ++ rule 45 ++ lit "\n\n"
      ++ export_turns (S i) rest
  end.

Definition word_count (history : list msg) : nat :=
  list_sum (List.map (fun m => length (split_ws (content m))) history).

Definition story_mode_name (d : user_data) : pystr :=
  match dict_get (default (lit "guided") (mode d)) STORY_MODES with
  | Some info => mode_name info
  | None => lit "Story"
  end.

Definition export_text (d : user_data) (history : list msg) : pystr :=
  let genre := default (lit "adventure") (genre d) in
  let mode := story_mode_name d in
  let turn_count := get_story_progress d in
  rule 61 ++ lit "\n"
  ++ lit "  " ++ default (lit "Story") (dict_get genre GENRES) ++ lit " - " ++ mode ++ lit "\n"
  ++ lit "  Turns: " ++ str_of_nat turn_count ++ lit "\n"
  ++ rule 61 ++ lit "\n\n"
  ++ match character_name d with
     | Some name =>
         lit "PROTAGONIST: " ++ name ++ lit "\n"
         ++ lit "TRAITS: " ++ default (lit "N/A") (character_traits d) ++ lit "\n"
         ++ lit "BACKGROUND: " ++ default (lit "N/A") (character_background d) ++ lit "\n\n"
         ++ rule 45 ++ lit "\n\n"
     | None => []
     end
  ++ export_turns 1 history
  ++ lit "\n" ++ rule 61 ++ lit "\n"
  ++ lit "Total words: " ++ str_of_nat (word_count history) ++ lit "\n"
  ++ lit "Generated by StoryBot\n"
  ++ rule 61.

(** [story_text.encode('utf-8')]; of the message of the error only the
    reason is kept. *)
Definition encode (s : pystr) : M (list byte) :=
  match encode_utf8 s with
  | Some bytes => mret bytes
  | None => raise (mkExc UnicodeEncodeError (lit "surrogates not allowed"))
  end.

Definition save_story : M unit :=
  emit (Answer (Some (lit "Preparing your story... 📚")));;
  d ← get;
  match story_history d with
  | None | Some [] =>
      emit (EditMessageText (lit "No story to save yet! Start writing first.")
                            None false)
  | Some history =>
      emit (EditMessageText (lit "💾 Saving your story...\n_Formatting document..._")
                            None true);;
      let genre := default (lit "adventure") (genre d) in
      let turn_count := get_story_progress d in
      let story_text := export_text d history in
      document ← encode story_text;
      emit (ReplyDocument document
              (lit "story_" ++ genre ++ lit "_" ++ str_of_nat turn_count ++ lit "turns.txt")
              (lit "📚 *Your Story Saved!*\n\n"
                 ++ lit "• " ++ str_of_nat turn_count ++ lit " turns\n"
                 ++ lit "• " ++ str_of_nat (word_count history) ++ lit " words\n"
                 ++ lit "• " ++ str_of_nat (length history) ++ lit " exchanges\n\n"
                 ++ lit "_Keep creating! Type to continue or /start for a new story._")
              true);;
      emit (ReplyText (lit "✅ Story saved successfully!") None false)
  end.

(** ** Starting over (lines 710-772) *)

(** [[buttons[i:i+2] for i in range(0, len(buttons), 2)]] *)
Fixpoint rows_of_two {A} (buttons : list A) : list (list A) :=
  match buttons with
  | a :: b :: rest => [a; b] :: rows_of_two rest
  | [a] => [[a]]
  | [] => []
  end.

Definition genre_keyboard : keyboard :=
  rows_of_two
    (List.map (fun '(genre, text) => (text, lit "genre_" ++ genre)) GENRES).

Definition confirm_new_story : M unit :=
  emit (Answer (Some (lit "Starting fresh! 🎬")));;
  (* Clear story data *)
  modify (fun _ => cleared);;
  emit (EditMessageText (lit "🎭 *Choose a genre for your new story:*")
                        (Some genre_keyboard) true).

Definition new_story : M unit :=
  emit (Answer None);;
  d ← get;
  (* Check if there's an active story *)
  let has_story :=
    bool_decide (is_Some (story_history d))
    && (0 <? length (default [] (story_history d)))%nat in
  if has_story then
    (* Confirm before clearing *)
    let keyboard :=
      [ [(lit "✅ Yes, Start Fresh", lit "confirm_new_story")];
        [(lit "❌ No, Keep Writing", lit "cancel_new_story")] ] in
    let turn_count := get_story_progress d in
    emit (EditMessageText
            (lit "⚠️ *Are you sure?*\n\n"
               ++ lit "You have an active story with " ++ str_of_nat turn_count ++ lit " turns.\n"
               ++ lit "Starting a new story will clear your progress.\n\n"
               ++ lit "_(You can save your current story first!)_")
            (Some keyboard) true)
  else
    (* No active story, go straight to genre selection *)
    confirm_new_story.

Definition cancel_new_story : M unit :=
  emit (Answer (Some (lit "Cancelled ✓")));;
  d ← get;
  let turn_count := get_story_progress d in
  emit (EditMessageText
          (lit "✅ *Story Preserved!*\n\n"
             ++ lit "Your story with " ++ str_of_nat turn_count ++ lit " turns is safe.\n"
             ++ lit "Type anything to continue writing!")
          None true).

(** ** Character creation (lines 339-423) *)

Definition receive_name (text : pystr) : M Z :=
  let name := strip text in
  (* Input validation *)
  if ((length name <? 2) || (30 <? length name))%nat then
    emit (ReplyText (lit "⚠️ Name must be between 2-30 characters.\n"
                       ++ lit "Please try again:") None false);;
    mret WAITING_NAME
  else
    modify (set_character_name (Some name));;
    emit (ReplyText
            (lit "✅ Great! *" ++ name ++ lit "* is a wonderful name.\n\n"
               ++ lit "👤 *Character Creation - Step 2/3*\n\n"
               ++ lit "Now, describe their *key traits*:\n"
               ++ lit "Examples: brave, clever, mysterious, kind, ruthless\n\n"
               ++ lit "_(Separate multiple traits with commas)_")
            None true);;
    mret WAITING_TRAITS.

Definition receive_traits (text : pystr) : M Z :=
  let traits := strip text in
  (* Input validation *)
  if (length traits <? 3)%nat then
    emit (ReplyText (lit "⚠️ Please describe at least one trait.\n"
                       ++ lit "Try again:") None false);;
    mret WAITING_TRAITS
  else
    modify (set_character_traits (Some traits));;
    name ← the_character_name;
    emit (ReplyText
            (lit "✅ Excellent! " ++ name ++ lit " sounds interesting.\n\n"
               ++ lit "👤 *Character Creation - Step 3/3*\n\n"
               ++ lit "Finally, what's their *background*?\n\n"
               ++ lit "Examples:\n"
               ++ lit "• A retired detective seeking redemption\n"
               ++ lit "• A young wizard from a small village\n"
               ++ lit "• An ex-soldier turned mercenary\n\n"
               ++ lit "_(Be creative but concise!)_")
            None true);;
    mret WAITING_BACKGROUND.

(** [context.user_data['character_traits']] *)
Definition the_character_traits : M pystr :=
  d ← get;
  match character_traits d with
  | Some t => mret t
  | None => raise (key_error (lit "character_traits"))
  end.

Definition receive_background (text : pystr) : M Z :=
  let background := strip text in
  (* Input validation *)
  if (length background <? 10)%nat then
    emit (ReplyText (lit "⚠️ Background too short. Please add more detail.\n"
                       ++ lit "Try again:") None false);;
    mret WAITING_BACKGROUND
  else
    modify (set_character_background (Some background));;
    modify (set_story_history (Some []));;
    name ← the_character_name;
    traits ← the_character_traits;
    emit (ReplyText
            (lit "✅ *Character Created!*\n\n"
               ++ lit "━━━━━━━━━━━━━━━\n"
               ++ lit "👤 *Name:* " ++ name ++ lit "\n"
               ++ lit "⭐ *Traits:* " ++ traits ++ lit "\n"
               ++ lit "📜 *Background:* " ++ background ++ lit "\n"
               ++ lit "━━━━━━━━━━━━━━━\n\n"
               ++ lit "🎬 *Ready to begin!*\n\n"
               ++ lit "Type anything to start your adventure with {name}!")
            None true);;
    mret ConversationHandler_END.

(** ** Setup flow (lines 168-240, 302-322, 425-447) *)

Definition genre_selected (data : pystr) : M unit :=
  emit (Answer None);;
  let genre := replace (lit "genre_") [] data in
  modify (set_genre (Some genre));;
  let keyboard :=
    List.map (fun '(mode_key, mode_data) =>
                [(mode_name mode_data, lit "mode_" ++ mode_key)]) STORY_MODES
    ++ [[(lit "⬅️ Back to Genres", lit "back_to_genres")]] in
  label ← table_item genre GENRES;
  emit (EditMessageText
          (lit "✅ Selected: " ++ label ++ lit "\n\n"
             ++ lit "🎭 *Choose your story mode:*\n\n"
             ++ lit "📖 *Tell Me a Story* - AI leads, you react\n"
             ++ lit "🎮 *Adventure Mode* - You make choices\n"
             ++ lit "✍️ *Co-Write* - Take turns writing")
          (Some keyboard) true).

Definition mode_selected (data : pystr) : M unit :=
  emit (Answer None);;
  let mode := replace (lit "mode_") [] data in
  modify (set_mode (Some mode));;
  d ← get;
  genre ← match genre d with
          | Some g => mret g
          | None => raise (key_error (lit "genre"))
          end;
  let keyboard :=
    [ [(lit "🎲 Use Story Template", lit "use_template")];
      [(lit "👤 Create Character First", lit "create_character")];
      [(lit "▶️ Start Immediately", lit "start_now")];
      [(lit "⬅️ Back to Modes", lit "genre_" ++ genre)] ] in
  info ← table_item mode STORY_MODES;
  emit (EditMessageText
          (lit "✅ Mode: " ++ mode_name info ++ lit "\n"
             ++ lit "_" ++ mode_desc info ++ lit "_\n\n"
             ++ lit "How would you like to begin?")
          (Some keyboard) true).

Definition template_selected (data : pystr) : M unit :=
  emit (Answer (Some (lit "Template selected! ✨")));;
  let template_key := replace (lit "tmpl_") [] data in
  d ← get;
  templates ← match templates d with
              | Some t => mret t
              | None => raise (key_error (lit "templates"))
              end;
  template ← table_item template_key templates;
  modify (set_template (Some template));;
  modify (set_story_history (Some []));;
  emit (EditMessageText
          (lit "📖 *" ++ title template ++ lit "*\n\n"
             ++ lit "_" ++ premise template ++ lit "_\n\n"
             ++ lit "━━━━━━━━━━━━━━━\n"
             ++ lit "✅ *Ready to begin!*\n\n"
             ++ lit "Type your first message to start the story, or give me a prompt like:\n"
             ++ lit "• 'I wake up in a mysterious place'\n"
             ++ lit "• 'The adventure begins'\n"
             ++ lit "• 'Describe the opening scene'")
          None true).

Definition start_now : M unit :=
  emit (Answer (Some (lit "Let's go! 🚀")));;
  modify (set_story_history (Some []));;
  d ← get;
  let genre :=
    default (lit "Adventure")
            (dict_get (default (lit "adventure") (genre d)) GENRES) in
  let mode := story_mode_name d in
  emit (EditMessageText
          (lit "🎬 *Story Started!*\n\n"
             ++ lit "📚 Genre: " ++ genre ++ lit "\n"
             ++ lit "🎭 Mode: " ++ mode ++ lit "\n"
             ++ lit "━━━━━━━━━━━━━━━\n\n"
             ++ lit "Type your first message to begin the story!\n\n"
             ++ lit "Ideas:\n"
             ++ lit "• Set the scene\n"
             ++ lit "• Introduce a character\n"
             ++ lit "• Start with action\n"
             ++ lit "• Ask the AI to begin")
          None true).

(** ** Template generation (lines 79-104, 242-300) *)

Definition lift {A} (r : result A) : M A :=
  match r with
  | Return a => mret a
  | Raise e => raise e
  end.

Definition templates_system_prompt (genre : pystr) : pystr :=
  lit "You are a creative story template generator. Generate 3 unique and exciting "
    ++ genre ++ lit " story templates.\n    \n    Format each template EXACTLY like this:\n    TEMPLATE 1: [Catchy Title]\n    [2-3 sentence exciting premise]\n    \n    TEMPLATE 2: [Catchy Title]\n    [2-3 sentence exciting premise]\n    \n    TEMPLATE 3: [Catchy Title]\n    [2-3 sentence exciting premise]\n    \n    Make them diverse and intriguing. Keep titles under 5 words.".

Section Templates.

(** Python's [str.title], whose case mapping follows the Unicode tables. *)
Variable str_title : pystr -> pystr.

(** The templates used when the generation call raises. *)
Definition genre_templates (genre : pystr) : pydict template :=
  [ (lit "template_1",
     mkTemplate (str_title genre ++ lit " Adventure") (lit "A thrilling journey begins..."));
    (lit "template_2",
     mkTemplate (lit "The " ++ str_title genre ++ lit " Mystery") (lit "Something strange is happening..."));
    (lit "template_3",
     mkTemplate (str_title genre ++ lit " Quest") (lit "An epic quest awaits...")) ].

Definition generate_story_templates (llm : result pystr) (genre : pystr)
    : M (pydict template) :=
  let system_prompt := templates_system_prompt genre in
  try_except
    (response ← call_llm_text llm [] system_prompt 400;
     lift (parse_templates response))
    (fun _ => mret (genre_templates genre)).

Definition show_templates (llm : result pystr) : M unit :=
  emit (Answer None);;
  emit (EditMessageText
          (lit "✨ *Crafting unique story templates...*\n\n"
             ++ lit "🎨 Generating creative ideas\n"
             ++ lit "⏳ This may take 10-15 seconds\n"
             ++ lit "☕ Hang tight!")
          None true);;
  try_except
    (d ← get;
     let genre := default (lit "adventure") (genre d) in
     templates ← generate_story_templates llm genre;
     modify (set_templates (Some templates));;
     d ← get;
     let keyboard :=
       List.map (fun '(key, tmpl) => [(title tmpl, lit "tmpl_" ++ key)])
                (take 3 templates)
       ++ [ [(lit "🔄 Generate New Templates", lit "use_template")];
            [(lit "✍️ Write My Own", lit "start_now")];
            [(lit "⬅️ Back", lit "mode_" ++ default (lit "guided") (mode d))] ] in
     label ← table_item genre GENRES;
     let template_text :=
       lit "🎭 *" ++ label ++ lit " Story Templates:*\n\n"
       ++ concat (imap (fun i '(key, tmpl) =>
                          lit "*" ++ str_of_nat (i + 1) ++ lit ". " ++ title tmpl
                            ++ lit "*\n_" ++ premise tmpl ++ lit "_\n\n")
                       (take 3 templates)) in
     emit (EditMessageText
             (template_text ++ lit "Choose a template or write your own:")
             (Some keyboard) true))
    (fun e =>
     d ← get;
     let keyboard :=
       [ [(lit "🔄 Try Again", lit "use_template")];
         [(lit "▶️ Skip Templates", lit "start_now")];
         [(lit "⬅️ Back", lit "mode_" ++ default (lit "guided") (mode d))] ] in
     emit (EditMessageText
             (lit "⚠️ *Oops! Template generation failed.*\n\n"
                ++ lit "Error: " ++ exc_str e ++ lit "\n\n"
                ++ lit "You can try again or skip to start your story!")
             (Some keyboard) true)).

End Templates.

(** [str.title] on ASCII letters, for concrete runs. *)
Fixpoint ascii_title_from (in_word : bool) (s : pystr) : pystr :=
  match s with
  | [] => []
  | c :: s' =>
      if (97 <=? c) && (c <=? 122)
      then (if in_word then c else c - 32) :: ascii_title_from true s'
      else if (65 <=? c) && (c <=? 90)
      then (if in_word then c + 32 else c) :: ascii_title_from true s'
      else c :: ascii_title_from false s'
  end.

Definition ascii_title (s : pystr) : pystr := ascii_title_from false s.

(** ** Welcome, help and the entry of the character creation
    (lines 151-166, 197-213, 324-337, 773-831) *)

Definition start : M unit :=
  emit (ReplyText
          (lit "🎭 *Welcome to StoryBot!*\n\n"
             ++ lit "I'll create interactive stories with you using AI.\n"
             ++ lit "Choose a genre to begin your adventure:")
          (Some genre_keyboard) true).

Definition back_to_genres : M unit :=
  emit (Answer None);;
  emit (EditMessageText (lit "🎭 *Choose a genre:*") (Some genre_keyboard) true).

Definition start_character_creation : M Z :=
  emit (Answer None);;
  emit (EditMessageText
          (lit "👤 *Character Creation - Step 1/3*\n\n"
             ++ lit "Let's create your protagonist!\n\n"
             ++ lit "What is your character's *name*?\n\n"
             ++ lit "_(Type your answer or /cancel to skip)_")
          None true);;
  mret WAITING_NAME.

Definition help_command : M unit :=
  emit (ReplyText
          (lit "🎭 *StoryBot Commands*\n\n"
             ++ lit "/start - Begin a new story\n"
             ++ lit "/help - Show this help message\n\n"
             ++ lit "*Features:*\n"
             ++ lit "• Multiple story modes\n"
             ++ lit "• Character creation\n"
             ++ lit "• AI-generated story templates\n"
             ++ lit "• Save your stories\n\n"
             ++ lit "*How it works:*\n"
             ++ lit "1. Choose a genre\n"
             ++ lit "2. Pick your story mode\n"
             ++ lit "3. Optionally create a character or use a template\n"
             ++ lit "4. Start writing your adventure!\n\n"
             ++ lit "The AI will guide you through an interactive storytelling experience! 📖")
          None true).

Definition cancel : M Z :=
  emit (ReplyText
          (lit "Character creation cancelled. Use /start to begin a new story!")
          None false);;
  mret ConversationHandler_END.

Definition show_help : M unit :=
  emit (Answer None);;
  let keyboard := [[(lit "⬅️ Back to Story", lit "close_help")]] in
  emit (EditMessageText
          (lit "🎭 *StoryBot Help*\n\n"
             ++ lit "*Commands:*\n"
             ++ lit "/start - Begin a new story\n"
             ++ lit "/help - Show this help\n"
             ++ lit "/cancel - Cancel character creation\n\n"
             ++ lit "*Tips:*\n"
             ++ lit "• Be specific in your prompts\n"
             ++ lit "• Use back buttons to change choices\n"
             ++ lit "• Save progress regularly\n"
             ++ lit "• Try different modes!\n\n"
             ++ lit "Type to continue your story! 📖")
          (Some keyboard) true).

Definition close_help : M unit :=
  emit (Answer None);;
  emit (EditMessageText (lit "💬 Type your next message to continue the story!")
                        None false).

(** ** Notions used in the statements *)

(** [user_data.get('story_history', [])] *)
Definition history_of (d : user_data) : list msg := default [] (story_history d).

(** The session after the initialization block of [generate_story]. *)
Definition begin_story (d : user_data) : user_data :=
  match story_history d with
  | Some _ => d
  | None =>
      set_mode (Some (lit "guided"))
        (set_genre (Some (lit "adventure")) (set_story_history (Some []) d))
  end.

(** The requests made to the generation service during a run. *)
Definition llm_requests (out : list Action) : list (list msg * pystr * nat) :=
  omap (fun a => match a with
                 | LlmRequest messages prompt n => Some (messages, prompt, n)
                 | _ => None
                 end) out.

(** The documents sent during a run. *)
Definition documents (out : list Action) : list (list byte) :=
  omap (fun a => match a with
                 | ReplyDocument document _ _ _ => Some document
                 | _ => None
                 end) out.

(** A session in which a first message failed, as [generate_story] leaves
    it from the empty dictionary. *)
Definition after_timeout : user_data :=
  final (generate_story
           (Raise (mkExc Exception (lit "Request timed out. Please try again.")))
           (lit "I enter the cave") cleared).

(** The user picked fantasy and co-writing, then typed a message without
    pressing a start button. *)
Definition picked_fantasy_cowrite : user_data :=
  final (mode_selected (lit "mode_cowrite")
           (final (genre_selected (lit "genre_fantasy") cleared))).

(** A session with a story and nothing pending. *)
Definition one_exchange : user_data :=
  set_story_history
    (Some [mkMsg user (lit "hi"); mkMsg assistant (lit "Hello")]) cleared.

(** A session in the middle of the character creation. *)
Definition named_zed : user_data :=
  set_character_traits (Some (lit "bold, sly"))
    (set_character_name (Some (lit "Zed")) cleared).

(** The service answers with a well-formed JSON body whose list of
    choices is empty. *)
Definition no_choices (payload : json) : result json :=
  Return (JObj [(lit "choices", JArr [])]).

(** The service answers with a body whose choices are [null]. *)
Definition null_choices (payload : json) : result json :=
  Return (JObj [(lit "choices", JNull)]).

(** The string does not begin, or end, with whitespace. *)
Definition no_lead (s : pystr) : Prop :=
  match s with
  | [] => True
  | c :: _ => isspace c = false
  end.

Definition no_trail (s : pystr) : Prop := no_lead (rev s).

(** A stripped, non-empty line. *)
Definition clean (s : pystr) : Prop := s <> [] /\ no_lead s /\ no_trail s.

(** The non-empty stripped lines of a body, as the loop collects them. *)
Definition body_lines (body : list pystr) : list pystr :=
  List.filter truthy (List.map strip body).

(** How the loop reads a line.  A marker, stripped, starts with
    [TEMPLATE] and has a colon: its label is what is left of the part
    before the colon, its title the part after.  A plain line does not
    start with [TEMPLATE]. *)
Definition marker_of (line : pystr) : option (pystr * pystr) :=
  let line := strip line in
  if startswith (lit "TEMPLATE") line then
    match split_once 58 line with
    | [part0; part1] =>
        Some (strip (replace (lit "TEMPLATE") [] part0), strip part1)
    | _ => None
    end
  else None.

Definition plain (line : pystr) : bool :=
  negb (startswith (lit "TEMPLATE") (strip line)).

(** [" ".join] of the non-empty stripped lines of a body. *)
Definition premise_of (body : list pystr) : pystr :=
  join (lit " ") (body_lines body).

(** A seed is completed when its premise is not empty. *)
Definition completed (seed : pystr * template) : bool := truthy (premise seed.2).

(** A reply in the format the prompt asks for. *)
Definition three_templates : pystr :=
  lit "Here are three ideas:\nTEMPLATE 1: The Cave\nA dark cave.\n\n It calls you. \nTEMPLATE 2: Lost Star\nA ship drifts.\nTEMPLATE 3: Old Debt\nPay up.\n".

(** The loop never fails: the current key is always in the dictionary. *)
Definition parse_inv (st : parse_state) : Prop :=
  match current_template st with
  | Some k => is_Some (dict_get k (templates_ st))
  | None => True
  end.

(** Three markers and no body at all. *)
Definition bare_markers : pystr := lit "TEMPLATE 1: A\nTEMPLATE 2: B\nTEMPLATE 3: C".

(** What the loop builds from them. *)
Definition bare_seeds : pydict template :=
  [ (lit "template_1", mkTemplate (lit "A") []);
    (lit "template_2", mkTemplate (lit "B") []);
    (lit "template_3", mkTemplate (lit "C") []) ].

(** The scenario of the specification: fantasy, adventure mode, no
    character, no template, story started. *)
Definition fantasy_adventure : user_data :=
  set_story_history (Some [])
    (set_mode (Some (lit "adventure")) (set_genre (Some (lit "fantasy")) cleared)).

Definition dragon_story : user_data :=
  final (generate_story (Return (lit "You see a dragon. A) Fight B) Flee"))
                        (lit "I enter the cave") fantasy_adventure).

(** Three markers with the same label. *)
Definition same_label_markers : pystr :=
  lit "TEMPLATE 1: A\na\nTEMPLATE 1: B\nb\nTEMPLATE 1: C\nc".

(** ** The handlers as events on a session

    One event is one call of a handler with what the update carries and,
    for the handlers that call the service, what the service does. *)
Inductive event :=
| Start
| GenreSelected (data : pystr)
| BackToGenres
| ModeSelected (data : pystr)
| ShowTemplates (llm : result pystr)
| TemplateSelected (data : pystr)
| StartCharacterCreation
| ReceiveName (text : pystr)
| ReceiveTraits (text : pystr)
| ReceiveBackground (text : pystr)
| Cancel
| StartNow
| GenerateStory (llm : result pystr) (text : pystr)
| RetryLast (llm : result pystr)
| SaveStory
| NewStory
| ConfirmNewStory
| CancelNewStory
| HelpCommand
| ShowHelp
| CloseHelp.

(** The dictionary a handler leaves, whether it returned or raised. *)
Definition after (str_title : pystr -> pystr) (e : event) (d : user_data)
    : user_data :=
  match e with
  | Start => final (start d)
  | GenreSelected data => final (genre_selected data d)
  | BackToGenres => final (back_to_genres d)
  | ModeSelected data => final (mode_selected data d)
  | ShowTemplates llm => final (show_templates str_title llm d)
  | TemplateSelected data => final (template_selected data d)
  | StartCharacterCreation => final (start_character_creation d)
  | ReceiveName text => final (receive_name text d)
  | ReceiveTraits text => final (receive_traits text d)
  | ReceiveBackground text => final (receive_background text d)
  | Cancel => final (cancel d)
  | StartNow => final (start_now d)
  | GenerateStory llm text => final (generate_story llm text d)
  | RetryLast llm => final (retry_last llm d)
  | SaveStory => final (save_story d)
  | NewStory => final (new_story d)
  | ConfirmNewStory => final (confirm_new_story d)
  | CancelNewStory => final (cancel_new_story d)
  | HelpCommand => final (help_command d)
  | ShowHelp => final (show_help d)
  | CloseHelp => final (close_help d)
  end.

(** The history is a sequence of exchanges: a user turn, then the
    assistant's. *)
Fixpoint alternating (history : list msg) : bool :=
  match history with
  | [] => true
  | u :: rest =>
      match rest with
      | a :: rest' => is_user u && negb (is_user a) && alternating rest'
      | [] => false
      end
  end.

(** What a run of a handler preserves. *)
Definition session_ok (d : user_data) : Prop :=
  alternating (history_of d) = true /\
  (is_Some (last_failed_message d) -> is_Some (story_history d)) /\
  (forall T, templates d = Some T -> (3 <= length T)%nat).

(** The exchanges of an alternating history as the export numbers them. *)
Fixpoint export_exchanges (k : nat) (history : list msg) : pystr :=
  match history with
  | u :: a :: rest =>
      lit "🧑 YOU (Turn " ++ str_of_nat k ++ lit "):\n" ++ content u ++ lit "\n\n"
      ++ rule 45 ++ lit "\n\n"
      ++ lit "📖 STORY:\n" ++ content a ++ lit "\n\n"
      ++ rule 45 ++ lit "\n\n"
      ++ export_exchanges (S k) rest
  | _ => []
  end.

(** [old] occurs somewhere in [s]. *)
Fixpoint occurs (old s : pystr) : bool :=
  startswith old s
  || match s with
     | [] => false
     | _ :: s' => occurs old s'
     end.

(** A line that starts with [TEMPLATE] but has no colon. *)
Definition stray (line : pystr) : bool :=
  startswith (lit "TEMPLATE") (strip line)
  && negb (bool_decide (is_Some (marker_of line))).

(** Two states of the loop that end in the same dictionary. *)
Definition same_outcome (st st' : parse_state) : Prop :=
  current_template st = current_template st' /\
  current_premise st = current_premise st' /\
  flush_template st = flush_template st' /\
  parse_inv st /\ parse_inv st'.

(** The subscript chain of [call_llm]:
    [result['choices'][0]['message']['content']]. *)
Definition response_content (body : json) : result json :=
  result_bind (getitem_str body (lit "choices")) (fun choices =>
  result_bind (getitem_0 choices) (fun choice =>
  result_bind (getitem_str choice (lit "message")) (fun message =>
  getitem_str message (lit "content")))).

(** A history whose second entry has a lone surrogate in its text. *)
Definition surrogate_story : user_data :=
  set_story_history
    (Some [mkMsg user (lit "hi"); mkMsg assistant [0xD83D]]) cleared.

(** A reply with a line that starts with [TEMPLATE] and has no colon
    inside the first body, and the same reply without that line. *)
Definition templates_with_stray_line : pystr :=
  lit "TEMPLATE 1: The Cave\nA dark cave.\nTEMPLATES are fun\nIt calls you.\nTEMPLATE 2: Lost Star\nA ship drifts.\nTEMPLATE 3: Old Debt\nPay up.".

Definition templates_without_stray_line : pystr :=
  lit "TEMPLATE 1: The Cave\nA dark cave.\nIt calls you.\nTEMPLATE 2: Lost Star\nA ship drifts.\nTEMPLATE 3: Old Debt\nPay up.".

(** The parts of the system prompt: the sentence on the genre with the
    instruction of the mode, and the sentence on the protagonist. *)
Definition prompt_head (genre mode : pystr) : pystr :=
  let base_prompt :=
    lit "You are a creative storyteller specializing in " ++ genre ++ lit " stories." in
  if bool_decide (mode = lit "guided") then
    base_prompt ++ lit "\nYou lead the story. Create engaging narratives that respond to the user's reactions. Keep responses to 2-3 paragraphs."
  else if bool_decide (mode = lit "adventure") then
    base_prompt ++ lit "\nPresent the user with meaningful choices. End each response with 2-3 options for what they can do next. Format like: 'What do you do? A) ... B) ... C) ...'"
  else if bool_decide (mode = lit "cowrite") then
    base_prompt ++ lit "\nYou and the user take turns writing the story. Build on what they write, then pause for their next contribution. Keep responses to 1-2 paragraphs."
  else base_prompt.

Definition protagonist_sentence (name traits background : pystr) : pystr :=
  lit "\n\nThe protagonist is " ++ name ++ lit ", who is "
    ++ traits ++ lit ". Background: " ++ background
    ++ lit ". Keep this character consistent throughout the story.".

(** The keys of a dictionary, in order. *)
Definition keys {V} (d : pydict V) : list pystr := List.map fst d.

(** The keys of the entries that the marker lines of a text create, line
    by line. *)
Definition marker_keys (lines : list pystr) : list pystr :=
  omap (fun line => (fun found => lit "template_" ++ found.1) <$> marker_of line)
       lines.

(** The keys of a dictionary after assigning to [k]: a new key goes to
    the end, a present one stays where it is. *)
Definition add_key (ks : list pystr) (k : pystr) : list pystr :=
  if bool_decide (k ∈ ks) then ks else ks ++ [k].

(** * Properties *)

Arguments lit : simpl never.
Arguments str_of_nat : simpl never.

(** Symbolic execution of a handler: unfold the monad, then project. *)
Ltac run_handler :=
  cbv [mbind M_bind mret M_ret get modify emit raise try_except lift
       history_append the_story_history the_character_name
       the_character_traits call_llm_text table_item encode];
  cbn [res final sent story_history genre mode templates template_
       character_name character_traits character_background
       last_failed_message set_story_history set_genre set_mode
       set_last_failed_message set_template set_templates
       set_character_name set_character_traits set_character_background app].

Lemma pop_last_user_after_append (d : user_data) (h : list msg) (text : pystr) :
  story_history d = Some (h ++ [mkMsg user text]) ->
  pop_last_user d = mkRun (Return tt) (set_story_history (Some h) d) [].
Proof.
  intros Hd. unfold pop_last_user. run_handler. rewrite Hd.
  rewrite last_snoc. cbn [is_user msg_role]. now rewrite removelast_last.
Qed.

Lemma pop_last_user_after_reply (d : user_data) (h : list msg) (text : pystr) :
  story_history d = Some (h ++ [mkMsg assistant text]) ->
  pop_last_user d = mkRun (Return tt) d [].
Proof.
  intros Hd. unfold pop_last_user. run_handler. rewrite Hd.
  now rewrite last_snoc.
Qed.

(** *** The turn engine *)

Lemma generate_story_success (d : user_data) (user_message story_text : pystr) :
  let r := generate_story (Return story_text) user_message d in
  res r = Return tt /\
  final r = set_story_history
              (Some (history_of d ++ [mkMsg user user_message;
                                      mkMsg assistant story_text]))
              (begin_story d).
Proof.
  unfold generate_story, history_of, begin_story.
  destruct d as [g m ts t [h|] cn ct cb lf]; run_handler;
    split; try reflexivity.
  - unfold set_story_history; cbn. now rewrite <- app_assoc.
Qed.

Lemma generate_story_failure (d : user_data) (user_message : pystr) (e : PyExc) :
  let r := generate_story (Raise e) user_message d in
  res r = Return tt /\
  final r = set_last_failed_message (Some user_message)
              (set_story_history (Some (history_of d)) (begin_story d)) /\
  last (sent r) =
    Some (ReplyText (generation_failed_text e)
            (Some [ [(lit "🔄 Retry", lit "retry_last")];
                    [(lit "💾 Save Progress", lit "save_story")];
                    [(lit "🆕 New Story", lit "new_story")] ]) true).
Proof.
  unfold generate_story, history_of, begin_story.
  destruct d as [g m ts t [h|] cn ct cb lf]; run_handler.
  - erewrite pop_last_user_after_append by reflexivity. run_handler.
    repeat split; reflexivity.
  - erewrite (pop_last_user_after_append _ []) by reflexivity. run_handler.
    repeat split; reflexivity.
Qed.

(** On a successful generation the history gains the user turn and the
    assistant turn, and [last_failed_message] is left as it was: the
    success path of [generate_story] has no statement that touches it. *)
Lemma generate_story_success_history (d : user_data) (user_message story_text : pystr) :
  let r := generate_story (Return story_text) user_message d in
  length (history_of (final r)) = (length (history_of d) + 2)%nat /\
  last_failed_message (final r) = last_failed_message d.
Proof.
  cbv zeta. destruct (generate_story_success d user_message story_text) as [_ ->].
  unfold history_of, begin_story.
  destruct d as [g m ts t [h|] cn ct cb lf]; cbn; split;
    rewrite ?length_app; cbn; try reflexivity; lia.
Qed.

(** The retry path does clear it after a successful generation. *)
Lemma retry_last_success_clears (d : user_data) (h : list msg)
    (last_message story_text : pystr) :
  story_history d = Some h ->
  last_failed_message d = Some last_message ->
  last_message <> [] ->
  let r := retry_last (Return story_text) d in
  res r = Return tt /\
  story_history (final r) =
    Some (h ++ [mkMsg user last_message; mkMsg assistant story_text]) /\
  last_failed_message (final r) = None.
Proof.
  intros Hh Hl Hne. unfold retry_last.
  destruct d as [g m ts t sh cn ct cb lf]; cbn in Hh, Hl; subst sh lf.
  destruct last_message as [|c s]; [congruence|].
  run_handler. cbn [from_option truthy negb default]. run_handler.
  repeat split; try reflexivity. now rewrite <- app_assoc.
Qed.

(** C1 (the code departs from it): after a failed message, a new message
    whose generation succeeds adds its two turns to the history but
    leaves [last_failed_message] holding the old failed text, where the
    claim has it cleared. *)
Theorem generate_story_success_keeps_last_failed_message :
  let r := generate_story (Return (lit "You see a dragon."))
                          (lit "I light a torch") after_timeout in
  last_failed_message after_timeout = Some (lit "I enter the cave") /\
  story_history after_timeout = Some [] /\
  res r = Return tt /\
  story_history (final r) =
    Some [mkMsg user (lit "I light a torch");
          mkMsg assistant (lit "You see a dragon.")] /\
  last_failed_message (final r) = Some (lit "I enter the cave").
Proof. vm_compute. repeat split; reflexivity. Qed.

(** C2: when the generation call raises, [generate_story] returns normally
    with the history exactly as before the call (the user turn appended
    for the call is removed again), [last_failed_message] holding the
    submitted text, and a last reply that carries [str(e)]. *)
Theorem generate_story_failure_rolls_back
    (d : user_data) (user_message : pystr) (e : PyExc) :
  let r := generate_story (Raise e) user_message d in
  res r = Return tt /\
  history_of (final r) = history_of d /\
  length (history_of (final r)) = length (history_of d) /\
  last_failed_message (final r) = Some user_message /\
  exists before after keyboard,
    last (sent r) = Some (ReplyText (before ++ exc_str e ++ after)
                                    (Some keyboard) true).
Proof.
  cbv zeta.
  destruct (generate_story_failure d user_message e) as (Hres & -> & Hsent).
  repeat split; try assumption; try reflexivity.
  rewrite Hsent. unfold generation_failed_text.
  exists (lit "⚠️ *Oops! Story generation failed.*\n\n" ++ lit "_").
  eexists. eexists. rewrite <- app_assoc. reflexivity.
Qed.

(** C10: when the dictionary has no ['story_history'] key, a story
    message sets the genre to ['adventure'] and the mode to ['guided']
    whatever they were, and the generation request is already made with
    the prompt of that genre and mode and the one user turn. *)
Theorem generate_story_overwrites_genre_and_mode
    (d : user_data) (llm : result pystr) (user_message : pystr) :
  story_history d = None ->
  let r := generate_story llm user_message d in
  genre (final r) = Some (lit "adventure") /\
  mode (final r) = Some (lit "guided") /\
  exists d',
    genre d' = Some (lit "adventure") /\ mode d' = Some (lit "guided") /\
    llm_requests (sent r) =
      [([mkMsg user user_message],
        build_system_prompt d' (lit "adventure") (lit "guided"), 500%nat)].
Proof.
  intros Hd. cbv zeta.
  destruct d as [g m ts t sh cn ct cb lf]; cbn in Hd; subst sh.
  destruct llm as [story_text|e].
  - unfold generate_story. run_handler.
    split; [reflexivity|]. split; [reflexivity|].
    eexists. split; [|split]; [| |reflexivity]; reflexivity.
  - unfold generate_story. run_handler.
    erewrite (pop_last_user_after_append _ []) by reflexivity. run_handler.
    split; [reflexivity|]. split; [reflexivity|].
    eexists. split; [|split]; [| |reflexivity]; reflexivity.
Qed.

Lemma generate_story_overwrites_genre_and_mode_witness :
  genre picked_fantasy_cowrite = Some (lit "fantasy") /\
  mode picked_fantasy_cowrite = Some (lit "cowrite") /\
  let r := generate_story (Return (lit "Once upon a time"))
                          (lit "hello") picked_fantasy_cowrite in
  genre (final r) = Some (lit "adventure") /\
  mode (final r) = Some (lit "guided").
Proof.
  split; [reflexivity|]. split; [reflexivity|].
  pose proof (generate_story_overwrites_genre_and_mode picked_fantasy_cowrite
                (Return (lit "Once upon a time")) (lit "hello") eq_refl) as H.
  cbv zeta in H. destruct H as (Hg & Hm & _). split; assumption.
Defined.

(** C5: with [last_failed_message] absent or empty, [retry_last] only
    answers the button and edits the message to say there is nothing to
    retry; the dictionary is unchanged and no generation is requested. *)
Theorem retry_last_nothing_to_retry (d : user_data) (llm : result pystr) :
  last_failed_message d = None \/ last_failed_message d = Some [] ->
  retry_last llm d =
    mkRun (Return tt) d
      [ Answer (Some (lit "Retrying... 🔄"));
        EditMessageText
          (lit "No message to retry. Please type a new message to continue!")
          None false ].
Proof.
  intros H. unfold retry_last. run_handler.
  destruct H as [-> | ->]; reflexivity.
Qed.

Lemma retry_last_nothing_to_retry_witness :
  retry_last (Return (lit "More story")) one_exchange =
    mkRun (Return tt) one_exchange
      [ Answer (Some (lit "Retrying... 🔄"));
        EditMessageText
          (lit "No message to retry. Please type a new message to continue!")
          None false ].
Proof. apply retry_last_nothing_to_retry. left. reflexivity. Defined.

(** *** Starting over *)



(** Without a story there is nothing to confirm: [new_story] clears at
    once. *)
Lemma new_story_without_history (d : user_data) :
  history_of d = [] -> final (new_story d) = cleared.
Proof.
  unfold history_of. intros Hh.
  destruct d as [g m ts t [h|] cn ct cb lf]; cbn in Hh; subst;
    unfold new_story; run_handler; reflexivity.
Qed.

(** *** Export *)

Lemma save_story_keeps_session (d : user_data) : final (save_story d) = d.
Proof.
  unfold save_story.
  destruct d as [g m ts t [[|m0 h]|] cn ct cb lf]; run_handler;
    try reflexivity.
  destruct (encode_utf8 _); run_handler; reflexivity.
Qed.

Lemma save_story_documents (d : user_data) :
  documents (sent (save_story d)) =
    match story_history d with
    | Some (m0 :: h) =>
        match encode_utf8 (export_text d (m0 :: h)) with
        | Some bytes => [bytes]
        | None => []
        end
    | _ => []
    end.
Proof.
  unfold save_story. run_handler.
  destruct (story_history d) as [[|m0 h]|]; run_handler; try reflexivity.
  destruct (encode_utf8 _); run_handler; reflexivity.
Qed.

Lemma export_text_depends_on (d d' : user_data) (history : list msg) :
  genre d' = genre d -> mode d' = mode d ->
  character_name d' = character_name d ->
  character_traits d' = character_traits d ->
  character_background d' = character_background d ->
  story_history d' = story_history d ->
  export_text d' history = export_text d history.
Proof.
  intros Hg Hm Hn Ht Hb Hh.
  unfold export_text, story_mode_name, get_story_progress.
  now rewrite Hg, Hm, Hn, Ht, Hb, Hh.
Qed.

(** C9: an export leaves the session as it found it, so a second export
    on that session runs as the first did and sends the same document
    bytes.  The document of a story is the UTF-8 encoding of the formatted
    text (none when the text cannot be encoded), and it is fixed by the
    genre, the mode, the character and the history alone: two sessions
    that agree on these export the same bytes, whatever their templates
    and pending text. *)
Theorem save_story_twice_same_document (d : user_data) :
  let first := save_story d in
  let second := save_story (final first) in
  final first = d /\ second = first /\
  documents (sent second) = documents (sent first) /\
  (forall m0 h,
     story_history d = Some (m0 :: h) ->
     documents (sent first) =
       match encode_utf8 (export_text d (m0 :: h)) with
       | Some bytes => [bytes]
       | None => []
       end) /\
  (forall d',
     genre d' = genre d -> mode d' = mode d ->
     character_name d' = character_name d ->
     character_traits d' = character_traits d ->
     character_background d' = character_background d ->
     story_history d' = story_history d ->
     documents (sent (save_story d')) = documents (sent first)).
Proof.
  cbv zeta. rewrite save_story_keeps_session.
  split; [reflexivity|]. split; [reflexivity|]. split; [reflexivity|]. split.
  - intros m0 h Hh. now rewrite save_story_documents, Hh.
  - intros d' Hg Hm Hn Ht Hb Hh.
    pose proof (fun history =>
                  export_text_depends_on d d' history Hg Hm Hn Ht Hb Hh) as Htext.
    rewrite !save_story_documents, Hh.
    destruct (story_history d) as [[|m0 h]|]; try reflexivity.
    now rewrite Htext.
Qed.

Lemma save_story_twice_same_document_witness :
  exists bytes,
    encode_utf8 (export_text dragon_story (history_of dragon_story)) = Some bytes /\
    documents (sent (save_story dragon_story)) = [bytes] /\
    documents (sent (save_story (final (save_story dragon_story)))) = [bytes] /\
    documents (sent (save_story
                       (set_last_failed_message (Some (lit "old")) dragon_story)))
      = [bytes].
Proof.
  destruct (save_story_twice_same_document dragon_story)
    as (_ & _ & Hsame & Hdoc & Hdep).
  specialize (Hdoc (mkMsg user (lit "I enter the cave"))
                   [mkMsg assistant (lit "You see a dragon. A) Fight B) Flee")]
                   eq_refl).
  destruct (encode_utf8 (export_text dragon_story (history_of dragon_story)))
    as [bytes|] eqn:E; [|vm_compute in E; discriminate].
  change (history_of dragon_story)
    with [mkMsg user (lit "I enter the cave");
          mkMsg assistant (lit "You see a dragon. A) Fight B) Flee")] in E.
  rewrite E in Hdoc. exists bytes. split; [reflexivity|]. split; [exact Hdoc|].
  split; [now rewrite Hsame|].
  rewrite <- Hdoc. apply Hdep; reflexivity.
Defined.

(** The document of a story is the UTF-8 encoding of [export_text]. *)
Lemma save_story_document (d : user_data) (m0 : msg) (h : list msg)
    (bytes : list byte) :
  story_history d = Some (m0 :: h) ->
  encode_utf8 (export_text d (m0 :: h)) = Some bytes ->
  res (save_story d) = Return tt /\ documents (sent (save_story d)) = [bytes].
Proof.
  intros Hh He. unfold save_story. run_handler. rewrite Hh.
  run_handler. rewrite He. run_handler. split; reflexivity.
Qed.

(** *** Character creation *)

Lemma receive_name_rejects (d : user_data) (text : pystr) :
  (length (strip text) < 2 \/ 30 < length (strip text))%nat ->
  receive_name text d =
    mkRun (Return WAITING_NAME) d
      [ReplyText (lit "⚠️ Name must be between 2-30 characters.\n"
                    ++ lit "Please try again:") None false].
Proof.
  intros H. unfold receive_name.
  replace ((length (strip text) <? 2) || (30 <? length (strip text)))%nat
    with true.
  - reflexivity.
  - symmetry. apply orb_true_iff. rewrite !Nat.ltb_lt. exact H.
Qed.

Lemma receive_name_accepts (d : user_data) (text : pystr) :
  (2 <= length (strip text) <= 30)%nat ->
  res (receive_name text d) = Return WAITING_TRAITS /\
  final (receive_name text d) = set_character_name (Some (strip text)) d.
Proof.
  intros H. unfold receive_name.
  replace ((length (strip text) <? 2) || (30 <? length (strip text)))%nat
    with false.
  - run_handler. split; reflexivity.
  - symmetry. apply orb_false_iff. rewrite !Nat.ltb_ge. lia.
Qed.

Lemma receive_traits_rejects (d : user_data) (text : pystr) :
  (length (strip text) < 3)%nat ->
  receive_traits text d =
    mkRun (Return WAITING_TRAITS) d
      [ReplyText (lit "⚠️ Please describe at least one trait.\n"
                    ++ lit "Try again:") None false].
Proof.
  intros H. unfold receive_traits.
  apply Nat.ltb_lt in H. rewrite H. reflexivity.
Qed.

Lemma receive_traits_accepts (d : user_data) (text : pystr) :
  (3 <= length (strip text))%nat ->
  final (receive_traits text d) = set_character_traits (Some (strip text)) d /\
  (is_Some (character_name d) ->
   res (receive_traits text d) = Return WAITING_BACKGROUND).
Proof.
  intros H. unfold receive_traits.
  apply Nat.ltb_ge in H. rewrite H.
  destruct d as [g m ts t sh [n|] ct cb lf]; run_handler; split;
    try reflexivity.
  intros [? [=]].
Qed.

Lemma receive_background_rejects (d : user_data) (text : pystr) :
  (length (strip text) < 10)%nat ->
  receive_background text d =
    mkRun (Return WAITING_BACKGROUND) d
      [ReplyText (lit "⚠️ Background too short. Please add more detail.\n"
                    ++ lit "Try again:") None false].
Proof.
  intros H. unfold receive_background.
  apply Nat.ltb_lt in H. rewrite H. reflexivity.
Qed.

Lemma receive_background_accepts (d : user_data) (text : pystr) :
  (10 <= length (strip text))%nat ->
  final (receive_background text d) =
    set_story_history (Some [])
      (set_character_background (Some (strip text)) d) /\
  (is_Some (character_name d) -> is_Some (character_traits d) ->
   res (receive_background text d) = Return ConversationHandler_END).
Proof.
  intros H. unfold receive_background.
  apply Nat.ltb_ge in H. rewrite H.
  destruct d as [g m ts t sh [n|] [tr|] cb lf]; run_handler; split;
    try reflexivity; intros Hn Ht; try reflexivity;
    try (destruct Hn as [? [=]]); destruct Ht as [? [=]].
Qed.

(** C7: each step of the character creation measures the stripped text.
    A name of 2 to 30 characters is stored and the flow moves to the
    traits, a shorter or longer one is refused; traits need 3 characters
    and a background 10.  A refusal sends the step's error message,
    returns the same state of the conversation and leaves the dictionary
    unchanged. *)
Theorem character_validation_bounds (d : user_data) (text : pystr) :
  let n := length (strip text) in
  ((2 <= n <= 30)%nat ->
     res (receive_name text d) = Return WAITING_TRAITS /\
     character_name (final (receive_name text d)) = Some (strip text)) /\
  ((n < 2 \/ 30 < n)%nat ->
     res (receive_name text d) = Return WAITING_NAME /\
     final (receive_name text d) = d /\
     exists error, sent (receive_name text d) = [ReplyText error None false]) /\
  ((3 <= n)%nat ->
     character_traits (final (receive_traits text d)) = Some (strip text) /\
     (is_Some (character_name d) ->
      res (receive_traits text d) = Return WAITING_BACKGROUND)) /\
  ((n < 3)%nat ->
     res (receive_traits text d) = Return WAITING_TRAITS /\
     final (receive_traits text d) = d /\
     exists error, sent (receive_traits text d) = [ReplyText error None false]) /\
  ((10 <= n)%nat ->
     character_background (final (receive_background text d)) = Some (strip text) /\
     (is_Some (character_name d) -> is_Some (character_traits d) ->
      res (receive_background text d) = Return ConversationHandler_END)) /\
  ((n < 10)%nat ->
     res (receive_background text d) = Return WAITING_BACKGROUND /\
     final (receive_background text d) = d /\
     exists error,
       sent (receive_background text d) = [ReplyText error None false]).
Proof.
  cbv zeta. repeat apply conj.
  - intros H. destruct (receive_name_accepts d text H) as [-> ->].
    split; reflexivity.
  - intros H. rewrite (receive_name_rejects d text H).
    repeat split. eexists. reflexivity.
  - intros H. destruct (receive_traits_accepts d text H) as [-> Hres].
    split; [reflexivity | exact Hres].
  - intros H. rewrite (receive_traits_rejects d text H).
    repeat split. eexists. reflexivity.
  - intros H. destruct (receive_background_accepts d text H) as [-> Hres].
    split; [reflexivity | exact Hres].
  - intros H. rewrite (receive_background_rejects d text H).
    repeat split. eexists. reflexivity.
Qed.

Lemma character_validation_bounds_witness :
  (* name: 1 refused, 2 and 30 accepted, 31 refused *)
  res (receive_name (lit " Z ") cleared) = Return WAITING_NAME /\
  res (receive_name (lit " Ze ") cleared) = Return WAITING_TRAITS /\
  res (receive_name (lit "abcdefghijklmnopqrstuvwxyz0123") cleared)
    = Return WAITING_TRAITS /\
  res (receive_name (lit "abcdefghijklmnopqrstuvwxyz01234") cleared)
    = Return WAITING_NAME /\
  (* traits: 2 refused, 3 accepted *)
  res (receive_traits (lit "ab") named_zed) = Return WAITING_TRAITS /\
  res (receive_traits (lit "abc") named_zed) = Return WAITING_BACKGROUND /\
  (* background: 9 refused, 10 accepted *)
  res (receive_background (lit "123456789") named_zed)
    = Return WAITING_BACKGROUND /\
  res (receive_background (lit "1234567890") named_zed)
    = Return ConversationHandler_END.
Proof.
  repeat apply conj.
  - apply (proj1 (proj2 (character_validation_bounds cleared (lit " Z ")))).
    vm_compute. lia.
  - apply (proj1 (character_validation_bounds cleared (lit " Ze "))).
    vm_compute. lia.
  - apply (proj1 (character_validation_bounds cleared
                    (lit "abcdefghijklmnopqrstuvwxyz0123"))).
    vm_compute. lia.
  - apply (proj1 (proj2 (character_validation_bounds cleared
                           (lit "abcdefghijklmnopqrstuvwxyz01234")))).
    vm_compute. lia.
  - destruct (character_validation_bounds named_zed (lit "ab"))
      as (_ & _ & _ & H & _).
    apply H. vm_compute. lia.
  - destruct (character_validation_bounds named_zed (lit "abc"))
      as (_ & _ & H & _).
    apply H; [vm_compute; lia | eexists; reflexivity].
  - destruct (character_validation_bounds named_zed (lit "123456789"))
      as (_ & _ & _ & _ & _ & H).
    apply H. vm_compute. lia.
  - destruct (character_validation_bounds named_zed (lit "1234567890"))
      as (_ & _ & _ & _ & H & _).
    apply H; [vm_compute; lia | eexists; reflexivity | eexists; reflexivity].
Defined.

(** *** The generation call *)

(** The three handled failures all leave [call_llm] as a plain
    [Exception] with a message of the program's own. *)
Lemma call_llm_timeout (post : json -> result json) (reason : pystr)
    (messages : list msg) (system_prompt : pystr) (max_tokens : nat) :
  post (llm_payload messages system_prompt max_tokens)
    = Raise (mkExc RequestsTimeout reason) ->
  call_llm post messages system_prompt max_tokens =
    Raise (mkExc Exception (lit "Request timed out. Please try again.")).
Proof. intros H. unfold call_llm. rewrite H. reflexivity. Qed.

Lemma call_llm_connection_error (post : json -> result json) (reason : pystr)
    (messages : list msg) (system_prompt : pystr) (max_tokens : nat) :
  post (llm_payload messages system_prompt max_tokens)
    = Raise (mkExc RequestsRequestException reason) ->
  call_llm post messages system_prompt max_tokens =
    Raise (mkExc Exception (lit "Connection error: " ++ reason)).
Proof. intros H. unfold call_llm. rewrite H. reflexivity. Qed.

Lemma call_llm_missing_choices (post : json -> result json)
    (members : pydict json)
    (messages : list msg) (system_prompt : pystr) (max_tokens : nat) :
  post (llm_payload messages system_prompt max_tokens) = Return (JObj members) ->
  dict_get (lit "choices") members = None ->
  call_llm post messages system_prompt max_tokens =
    Raise (mkExc Exception (lit "Unexpected response format from AI.")).
Proof.
  intros H Hc. unfold call_llm. rewrite H.
  cbn [result_bind getitem_str]. rewrite Hc. reflexivity.
Qed.

Lemma call_llm_returns_content (post : json -> result json) (text : json)
    (messages : list msg) (system_prompt : pystr) (max_tokens : nat) :
  post (llm_payload messages system_prompt max_tokens) =
    Return (JObj [(lit "choices",
                   JArr [JObj [(lit "message",
                                JObj [(lit "content", text)])]])]) ->
  call_llm post messages system_prompt max_tokens = Return text.
Proof. intros H. unfold call_llm. rewrite H. reflexivity. Qed.

(** C4 (the code departs from it): a body with an empty list of choices
    makes [call_llm] raise the interpreter's [IndexError], and one with
    [null] choices its [TypeError]; neither is turned into the
    [Exception] with the message for an unexpected response, which only
    a missing key gets. *)
Theorem call_llm_unexpected_shape_escapes
    (messages : list msg) (system_prompt : pystr) (max_tokens : nat) :
  call_llm no_choices messages system_prompt max_tokens =
    Raise (mkExc IndexError (lit "list index out of range")) /\
  call_llm null_choices messages system_prompt max_tokens =
    Raise (mkExc TypeError (lit "'NoneType' object is not subscriptable")) /\
  call_llm no_choices messages system_prompt max_tokens <>
    Raise (mkExc Exception (lit "Unexpected response format from AI.")).
Proof.
  repeat apply conj.
  - vm_compute. reflexivity.
  - vm_compute. reflexivity.
  - vm_compute. intros [=].
Qed.

(** *** Strings without leading or trailing whitespace *)

Lemma lstrip_no_lead (s : pystr) : no_lead (lstrip s).
Proof.
  induction s as [|c s IH]; cbn; [exact I|].
  destruct (isspace c) eqn:E; [exact IH | exact E].
Qed.

Lemma lstrip_fixed (s : pystr) : no_lead s -> lstrip s = s.
Proof. destruct s as [|c s]; cbn; [reflexivity|]. now intros ->. Qed.

Lemma lstrip_snoc (s : pystr) (c : N) :
  isspace c = false -> lstrip (s ++ [c]) = lstrip s ++ [c].
Proof.
  intros Hc. induction s as [|a s IH]; cbn.
  - now rewrite Hc.
  - destruct (isspace a); [exact IH | reflexivity].
Qed.

Lemma rstrip_no_lead (s : pystr) : no_lead s -> no_lead (rstrip s).
Proof.
  unfold rstrip. destruct s as [|c s]; cbn; [trivial|]. intros Hc.
  rewrite lstrip_snoc by exact Hc. rewrite rev_app_distr. exact Hc.
Qed.

Lemma strip_no_lead (s : pystr) : no_lead (strip s).
Proof. apply rstrip_no_lead, lstrip_no_lead. Qed.

Lemma strip_no_trail (s : pystr) : no_trail (strip s).
Proof.
  unfold no_trail, strip, rstrip. rewrite rev_involutive.
  apply lstrip_no_lead.
Qed.

Lemma strip_fixed (s : pystr) : no_lead s -> no_trail s -> strip s = s.
Proof.
  intros Hl Ht. unfold strip, rstrip. rewrite (lstrip_fixed s Hl).
  rewrite (lstrip_fixed (rev s) Ht). apply rev_involutive.
Qed.

Lemma no_lead_app (a b : pystr) : a <> [] -> no_lead a -> no_lead (a ++ b).
Proof. destruct a; [congruence | intros _ H; exact H]. Qed.

Lemma no_trail_app (a b : pystr) : b <> [] -> no_trail b -> no_trail (a ++ b).
Proof.
  unfold no_trail. intros Hb H. rewrite rev_app_distr.
  apply no_lead_app; [|exact H].
  intros E. apply Hb. now rewrite <- (rev_involutive b), E.
Qed.

Lemma join_clean (sep : pystr) (parts : list pystr) :
  Forall clean parts -> parts <> [] -> clean (join sep parts).
Proof.
  induction 1 as [|p parts Hp Hparts IH]; [congruence|]. intros _.
  destruct parts as [|q parts]; [exact Hp|].
  change (clean (p ++ sep ++ join sep (q :: parts))).
  destruct Hp as (Hne & Hl & Ht).
  destruct (IH ltac:(congruence)) as (Jne & Jl & Jt).
  repeat split.
  - destruct p; [congruence | discriminate].
  - now apply no_lead_app.
  - rewrite app_assoc. now apply no_trail_app.
Qed.

Lemma strip_join_clean (sep : pystr) (parts : list pystr) :
  Forall clean parts -> strip (join sep parts) = join sep parts.
Proof.
  intros H. destruct parts as [|p parts]; [reflexivity|].
  destruct (join_clean sep (p :: parts) H ltac:(congruence)) as (_ & Hl & Ht).
  now apply strip_fixed.
Qed.

Lemma body_lines_clean (body : list pystr) : Forall clean (body_lines body).
Proof.
  unfold body_lines. induction body as [|l body IH]; cbn; [constructor|].
  destruct (truthy (strip l)) eqn:E; [|exact IH].
  constructor; [|exact IH]. repeat split.
  - intros E'. rewrite E' in E. discriminate.
  - apply strip_no_lead.
  - apply strip_no_trail.
Qed.

(** *** Dictionaries *)

Lemma dict_get_set_same {V} (k : pystr) (v : V) (d : pydict V) :
  dict_get k (dict_set k v d) = Some v.
Proof.
  induction d as [|[k' v'] d IH]; cbn.
  - now rewrite bool_decide_eq_true_2.
  - destruct (bool_decide (k' = k)) eqn:E; cbn.
    + now rewrite bool_decide_eq_true_2.
    + now rewrite E.
Qed.

Lemma dict_get_set_other {V} (k k' : pystr) (v : V) (d : pydict V) :
  k <> k' -> dict_get k' (dict_set k v d) = dict_get k' d.
Proof.
  intros Hne. induction d as [|[k0 v0] d IH]; cbn.
  - now rewrite bool_decide_eq_false_2.
  - destruct (bool_decide (k0 = k)) eqn:E; cbn.
    + apply bool_decide_eq_true_1 in E. subst k0.
      now rewrite !bool_decide_eq_false_2.
    + now rewrite IH.
Qed.

Lemma dict_set_set {V} (k : pystr) (v v' : V) (d : pydict V) :
  dict_set k v (dict_set k v' d) = dict_set k v d.
Proof.
  induction d as [|[k0 v0] d IH]; cbn.
  - now rewrite bool_decide_eq_true_2.
  - destruct (bool_decide (k0 = k)) eqn:E; cbn.
    + now rewrite bool_decide_eq_true_2.
    + now rewrite E, IH.
Qed.

Lemma dict_set_present {V} (k : pystr) (v : V) (d : pydict V) :
  is_Some (dict_get k d) -> length (dict_set k v d) = length d.
Proof.
  induction d as [|[k0 v0] d IH]; cbn.
  - intros [? [=]].
  - destruct (bool_decide (k0 = k)); cbn; [reflexivity|].
    intros H. now rewrite IH.
Qed.

Lemma dict_get_None_keys {V} (k : pystr) (d : pydict V) :
  dict_get k d = None -> ~ In k (keys d).
Proof.
  induction d as [|[k' v'] d IH]; cbn; [tauto|].
  destruct (bool_decide (k' = k)) eqn:E; [discriminate|].
  apply bool_decide_eq_false_1 in E. intros H [H'|H']; [congruence|].
  now apply IH.
Qed.

Lemma keys_dict_set {V} (k : pystr) (v : V) (d : pydict V) :
  keys (dict_set k v d) =
    match dict_get k d with
    | Some _ => keys d
    | None => keys d ++ [k]
    end.
Proof.
  unfold keys. induction d as [|[k' v'] d IH]; cbn; [reflexivity|].
  destruct (bool_decide (k' = k)) eqn:E; cbn.
  - apply bool_decide_eq_true_1 in E. now subst.
  - rewrite IH. now destruct (dict_get k d).
Qed.

Lemma NoDup_keys_dict_set {V} (k : pystr) (v : V) (d : pydict V) :
  List.NoDup (keys d) -> List.NoDup (keys (dict_set k v d)).
Proof.
  intros H. rewrite keys_dict_set. destruct (dict_get k d) eqn:E; [exact H|].
  apply List.NoDup_app; [exact H | repeat constructor; exact id |].
  intros x Hx [<-|[]]. exact (dict_get_None_keys k d E Hx).
Qed.

Lemma dict_get_Some_keys {V} (k : pystr) (v : V) (d : pydict V) :
  dict_get k d = Some v -> In k (keys d).
Proof.
  induction d as [|[k' v'] d IH]; cbn; [discriminate|].
  destruct (bool_decide (k' = k)) eqn:E.
  - apply bool_decide_eq_true_1 in E. now left.
  - intros H. right. now apply IH.
Qed.

(** An assignment puts a new key at the end of the dictionary and leaves
    a present one where it is. *)
Lemma keys_dict_set_add_key {V} (k : pystr) (v : V) (d : pydict V) :
  keys (dict_set k v d) = add_key (keys d) k.
Proof.
  rewrite keys_dict_set. unfold add_key.
  destruct (dict_get k d) as [v'|] eqn:E.
  - apply dict_get_Some_keys, list_elem_of_In in E.
    now rewrite bool_decide_eq_true_2.
  - apply dict_get_None_keys in E.
    rewrite bool_decide_eq_false_2; [reflexivity|].
    now rewrite list_elem_of_In.
Qed.

(** *** The template parser *)

Lemma parse_lines_app (st : parse_state) (a b : list pystr) :
  parse_lines st (a ++ b) =
    result_bind (parse_lines st a) (fun st' => parse_lines st' b).
Proof.
  revert st. induction a as [|l a IH]; intros st; cbn; [reflexivity|].
  destruct (parse_line st l); cbn; [apply IH | reflexivity].
Qed.

Lemma parse_line_plain (st : parse_state) (line : pystr) :
  plain line = true ->
  parse_line st line =
    Return (if truthy (strip line) && from_option truthy false (current_template st)
            then mkParse (templates_ st) (current_template st)
                         (current_premise st ++ [strip line])
            else st).
Proof.
  unfold plain, parse_line. intros H. apply negb_true_iff in H.
  rewrite H. now destruct (_ && _).
Qed.

Lemma parse_lines_before (T : pydict template) (p lines : list pystr) :
  Forall (fun l => plain l = true) lines ->
  parse_lines (mkParse T None p) lines = Return (mkParse T None p).
Proof.
  induction 1 as [|l lines Hl _ IH]; cbn; [reflexivity|].
  rewrite (parse_line_plain _ _ Hl). cbn. rewrite andb_false_r. exact IH.
Qed.

Lemma parse_lines_body (T : pydict template) (k : pystr) (p lines : list pystr) :
  truthy k = true ->
  Forall (fun l => plain l = true) lines ->
  parse_lines (mkParse T (Some k) p) lines =
    Return (mkParse T (Some k) (p ++ body_lines lines)).
Proof.
  intros Hk H. revert p.
  induction H as [|l lines Hl _ IH]; intros p; cbn.
  - unfold body_lines. cbn. now rewrite app_nil_r.
  - rewrite (parse_line_plain _ _ Hl). cbn. rewrite Hk, andb_true_r.
    unfold body_lines. cbn. destruct (truthy (strip l)); cbn.
    + rewrite IH. unfold body_lines. now rewrite <- app_assoc.
    + apply IH.
Qed.

Lemma parse_line_marker (st : parse_state) (line label title : pystr) :
  marker_of line = Some (label, title) ->
  parse_line st line =
    result_bind (flush_template st) (fun T =>
      Return (mkParse (dict_set (lit "template_" ++ label) (mkTemplate title []) T)
                      (Some (lit "template_" ++ label)) [])).
Proof.
  unfold marker_of, parse_line. cbv zeta.
  destruct (startswith (lit "TEMPLATE") (strip line)); [|discriminate].
  destruct (split_once 58 (strip line)) as [|p0 [|p1 [|? ?]]]; try discriminate.
  now intros [= <- <-].
Qed.

Lemma template_key_truthy (label : pystr) : truthy (lit "template_" ++ label) = true.
Proof. reflexivity. Qed.

(** The flush after a marker and its body records the joined body lines
    as the premise. *)
Lemma flush_after_body (T : pydict template) (k heading : pystr) (body : list pystr) :
  truthy k = true ->
  flush_template
    (mkParse (dict_set k (mkTemplate heading []) T) (Some k) (body_lines body))
  = Return (dict_set k (mkTemplate heading (premise_of body)) T).
Proof.
  intros Hk. unfold flush_template, premise_of.
  cbn [current_template current_premise templates_].
  destruct (body_lines body) as [|l ls] eqn:E.
  - reflexivity.
  - rewrite Hk, dict_get_set_same. cbn [title].
    rewrite dict_set_set. rewrite strip_join_clean; [reflexivity|].
    rewrite <- E. apply body_lines_clean.
Qed.

(** One marker line followed by plain lines. *)
Lemma parse_block (st : parse_state) (T : pydict template)
    (m label title : pystr) (body : list pystr) :
  flush_template st = Return T ->
  marker_of m = Some (label, title) ->
  Forall (fun l => plain l = true) body ->
  exists st',
    parse_lines st (m :: body) = Return st' /\
    flush_template st' =
      Return (dict_set (lit "template_" ++ label)
                       (mkTemplate title (premise_of body)) T).
Proof.
  intros Hf Hm Hb. eexists. split.
  - cbn [parse_lines]. rewrite (parse_line_marker _ _ _ _ Hm), Hf.
    cbn [result_bind].
    rewrite (parse_lines_body _ _ _ _ (template_key_truthy label) Hb).
    reflexivity.
  - cbn [app]. apply flush_after_body, template_key_truthy.
Qed.

Lemma template_key_inj (a b : pystr) :
  a <> b -> lit "template_" ++ a <> lit "template_" ++ b.
Proof. intros H E. apply H. exact (app_inv_head _ _ _ E). Qed.

(** C6: a text whose lines are three marker lines with pairwise
    different labels, each followed by plain lines, after any plain
    lines before the first marker, parses to exactly three seeds, in
    order: the title of each marker with the non-empty stripped lines of
    its body joined by single spaces. *)
Theorem parse_templates_well_formed
    (response : pystr) (before body1 body2 body3 : list pystr)
    (m1 m2 m3 n1 n2 n3 t1 t2 t3 : pystr) :
  split_on 10 (strip response) =
    before ++ (m1 :: body1) ++ (m2 :: body2) ++ (m3 :: body3) ->
  Forall (fun l => plain l = true) before ->
  Forall (fun l => plain l = true) body1 ->
  Forall (fun l => plain l = true) body2 ->
  Forall (fun l => plain l = true) body3 ->
  marker_of m1 = Some (n1, t1) ->
  marker_of m2 = Some (n2, t2) ->
  marker_of m3 = Some (n3, t3) ->
  n1 <> n2 -> n1 <> n3 -> n2 <> n3 ->
  parse_templates response =
    Return [ (lit "template_" ++ n1, mkTemplate t1 (premise_of body1));
             (lit "template_" ++ n2, mkTemplate t2 (premise_of body2));
             (lit "template_" ++ n3, mkTemplate t3 (premise_of body3)) ].
Proof.
  intros Hlines Hb0 Hb1 Hb2 Hb3 Hm1 Hm2 Hm3 H12 H13 H23.
  unfold parse_templates, parsed_templates. cbv zeta. rewrite Hlines.
  rewrite parse_lines_app, (parse_lines_before _ _ _ Hb0). cbn [result_bind].
  destruct (parse_block (mkParse [] None []) [] m1 n1 t1 body1 eq_refl Hm1 Hb1)
    as (st1 & Hp1 & Hf1).
  rewrite parse_lines_app, Hp1. cbn [result_bind].
  destruct (parse_block st1 _ m2 n2 t2 body2 Hf1 Hm2 Hb2) as (st2 & Hp2 & Hf2).
  rewrite parse_lines_app, Hp2. cbn [result_bind].
  destruct (parse_block st2 _ m3 n3 t3 body3 Hf2 Hm3 Hb3) as (st3 & Hp3 & Hf3).
  rewrite Hp3. cbn [result_bind]. rewrite Hf3. cbn [result_bind].
  repeat (cbn [dict_set];
          rewrite ?bool_decide_eq_false_2 by (apply template_key_inj; congruence)).
  reflexivity.
Qed.

Lemma parse_templates_well_formed_witness :
  parse_templates three_templates =
    Return [ (lit "template_1", mkTemplate (lit "The Cave") (lit "A dark cave. It calls you."));
             (lit "template_2", mkTemplate (lit "Lost Star") (lit "A ship drifts."));
             (lit "template_3", mkTemplate (lit "Old Debt") (lit "Pay up.")) ].
Proof.
  apply (parse_templates_well_formed three_templates
           [lit "Here are three ideas:"]
           [lit "A dark cave."; []; lit " It calls you. "]
           [lit "A ship drifts."] [lit "Pay up."]
           (lit "TEMPLATE 1: The Cave") (lit "TEMPLATE 2: Lost Star")
           (lit "TEMPLATE 3: Old Debt")
           (lit "1") (lit "2") (lit "3")
           (lit "The Cave") (lit "Lost Star") (lit "Old Debt"));
    try (vm_compute; reflexivity);
    try (repeat constructor);
    vm_compute; discriminate.
Defined.

Lemma dict_get_set_is_Some {V} (k k' : pystr) (v : V) (d : pydict V) :
  is_Some (dict_get k' d) -> is_Some (dict_get k' (dict_set k v d)).
Proof.
  intros H. destruct (decide (k = k')) as [->|Hne].
  - rewrite dict_get_set_same. eauto.
  - now rewrite dict_get_set_other.
Qed.

Lemma flush_template_total (st : parse_state) :
  parse_inv st ->
  exists T, flush_template st = Return T /\
            forall k, is_Some (dict_get k (templates_ st)) -> is_Some (dict_get k T).
Proof.
  unfold parse_inv, flush_template.
  destruct st as [T [k|] p]; cbn [current_template current_premise templates_].
  - intros [t Ht]. destruct p as [|l p]; [eauto|].
    destruct (truthy k); [|eauto]. rewrite Ht.
    eexists. split; [reflexivity|]. intros k'. apply dict_get_set_is_Some.
  - intros _. destruct p; eauto.
Qed.

Lemma parse_line_total (st : parse_state) (line : pystr) :
  parse_inv st -> exists st', parse_line st line = Return st' /\ parse_inv st'.
Proof.
  intros Hinv. unfold parse_line. cbv zeta.
  destruct (startswith (lit "TEMPLATE") (strip line)).
  - destruct (flush_template_total st Hinv) as (T & -> & Hkeys).
    cbn [result_bind].
    destruct (split_once 58 (strip line)) as [|p0 [|p1 [|? ?]]];
      try (eexists; split; [reflexivity|];
           unfold parse_inv in *; cbn [current_template templates_];
           destruct (current_template st); [apply Hkeys, Hinv | exact I]).
    eexists. split; [reflexivity|]. unfold parse_inv.
    cbn [current_template templates_]. rewrite dict_get_set_same. eauto.
  - destruct (_ && _); eauto.
Qed.

Lemma parse_lines_total (lines : list pystr) (st : parse_state) :
  parse_inv st -> exists st', parse_lines st lines = Return st' /\ parse_inv st'.
Proof.
  revert st. induction lines as [|l lines IH]; intros st Hinv; cbn.
  - eauto.
  - destruct (parse_line_total st l Hinv) as (st1 & -> & Hinv1). cbn.
    apply IH, Hinv1.
Qed.

Lemma parsed_templates_total (response : pystr) :
  exists found, parsed_templates response = Return found.
Proof.
  unfold parsed_templates. cbv zeta.
  destruct (parse_lines_total (split_on 10 (strip response)) (mkParse [] None []) I)
    as (st & -> & Hinv).
  cbn. destruct (flush_template_total st Hinv) as (T & -> & _). eauto.
Qed.

(** C3 as stated fails twice.  From three markers without bodies no
    completed seed is parsed, yet the flow receives these three seeds with
    empty premises and not the fallback; and on an empty text, where the
    loop finds nothing, it is [parse_templates] itself that returns the
    fallback. *)
Lemma fewer_completed_seeds_not_replaced :
  (parsed_templates bare_markers = Return bare_seeds /\
   (length (List.filter completed bare_seeds) < 3)%nat /\
   res (generate_story_templates ascii_title (Return bare_markers)
                                 (lit "fantasy") cleared)
     = Return bare_seeds /\
   bare_seeds <> default_templates) /\
  (parsed_templates [] = Return [] /\
   parse_templates [] = Return default_templates).
Proof.
  split; [split; [|split; [|split]] | split].
  - vm_compute. reflexivity.
  - vm_compute. lia.
  - vm_compute. reflexivity.
  - vm_compute. discriminate.
  - vm_compute. reflexivity.
  - vm_compute. reflexivity.
Qed.

Lemma generate_story_templates_returns (str_title : pystr -> pystr)
    (response genre : pystr) (d : user_data) :
  let r := generate_story_templates str_title (Return response) genre d in
  res r = parse_templates response /\ final r = d.
Proof.
  unfold generate_story_templates. run_handler.
  destruct (parsed_templates_total response) as (found & Hfound).
  unfold parse_templates. rewrite Hfound. cbn [result_bind]. run_handler.
  split; reflexivity.
Qed.

Lemma generate_story_templates_raises (str_title : pystr -> pystr)
    (e : PyExc) (genre : pystr) (d : user_data) :
  let r := generate_story_templates str_title (Raise e) genre d in
  res r = Return (genre_templates str_title genre) /\ final r = d.
Proof. unfold generate_story_templates. run_handler. split; reflexivity. Qed.


(** The keys of the dictionary follow the marker lines alone: bodies
    only rewrite entries that are there. *)
Lemma flush_template_keys (st : parse_state) (T : pydict template) :
  flush_template st = Return T -> keys T = keys (templates_ st).
Proof.
  unfold flush_template.
  destruct (current_template st) as [k|]; [|now intros [= <-]].
  destruct (current_premise st) as [|l p]; [now intros [= <-]|].
  destruct (truthy k); [|now intros [= <-]].
  destruct (dict_get k (templates_ st)) as [t|] eqn:E; [|discriminate].
  intros [= <-]. now rewrite keys_dict_set, E.
Qed.

Lemma marker_keys_cons (line : pystr) (rest : list pystr) :
  marker_keys (line :: rest) =
    match marker_of line with
    | Some found => (lit "template_" ++ found.1) :: marker_keys rest
    | None => marker_keys rest
    end.
Proof.
  unfold marker_keys. cbn [omap list_omap].
  now destruct (marker_of line).
Qed.

Lemma parse_line_keys (st st' : parse_state) (line : pystr) :
  parse_line st line = Return st' ->
  keys (templates_ st') =
    fold_left add_key (marker_keys [line]) (keys (templates_ st)).
Proof.
  rewrite marker_keys_cons. unfold parse_line, marker_of. cbv zeta.
  destruct (startswith (lit "TEMPLATE") (strip line)).
  - destruct (flush_template st) as [T|e] eqn:EF; cbn [result_bind];
      [|discriminate].
    apply flush_template_keys in EF.
    destruct (split_once 58 (strip line)) as [|p0 [|p1 [|p2 l]]];
      intros [= <-]; cbn [templates_ fold_left fst marker_keys omap list_omap];
      rewrite ?keys_dict_set_add_key, EF; reflexivity.
  - destruct (_ && _); intros [= <-]; reflexivity.
Qed.

Lemma parse_lines_keys (lines : list pystr) (st st' : parse_state) :
  parse_lines st lines = Return st' ->
  keys (templates_ st') =
    fold_left add_key (marker_keys lines) (keys (templates_ st)).
Proof.
  revert st. induction lines as [|line lines IH]; intros st; cbn [parse_lines].
  - now intros [= <-].
  - destruct (parse_line st line) as [st1|e] eqn:E1; cbn [result_bind];
      [|discriminate].
    intros H. rewrite (IH _ H), (parse_line_keys _ _ _ E1).
    rewrite !marker_keys_cons. now destruct (marker_of line).
Qed.

Lemma parsed_templates_keys (response : pystr) (found : pydict template) :
  parsed_templates response = Return found ->
  keys found = fold_left add_key (marker_keys (split_on 10 (strip response))) [].
Proof.
  unfold parsed_templates. cbv zeta.
  destruct (parse_lines _ _) as [st|e] eqn:E; cbn [result_bind]; [|discriminate].
  intros H. rewrite (flush_template_keys _ _ H).
  apply (parse_lines_keys _ _ _ E).
Qed.

(** A marker line at the end of the text leaves an entry with its title
    and an empty premise. *)
Lemma parsed_templates_last_marker
    (response : pystr) (before : list pystr) (line label heading : pystr)
    (found : pydict template) :
  split_on 10 (strip response) = before ++ [line] ->
  marker_of line = Some (label, heading) ->
  parsed_templates response = Return found ->
  dict_get (lit "template_" ++ label) found = Some (mkTemplate heading []).
Proof.
  intros Hl Hm. unfold parsed_templates. cbv zeta. rewrite Hl, parse_lines_app.
  destruct (parse_lines_total before (mkParse [] None []) I) as (st1 & -> & Hinv).
  cbn [result_bind parse_lines]. rewrite (parse_line_marker st1 line label heading Hm).
  destruct (flush_template_total st1 Hinv) as (T & -> & _).
  cbn [result_bind]. unfold flush_template.
  cbn [current_template current_premise templates_].
  intros [= <-]. apply dict_get_set_same.
Qed.

(** C3, amended: the dictionary that the loop of [parse_templates]
    builds has one entry for each label of a marker line, in the order
    of their first marker lines, whether or not a body follows; a
    marker line that ends the text leaves its title with an empty
    premise.  [parse_templates] itself makes the substitution, exactly
    when that dictionary has fewer than three entries, and never
    raises; its caller hands on the result unchanged whenever the
    generation call returns. *)
Theorem parse_templates_substitutes_fallback
    (str_title : pystr -> pystr) (response genre : pystr) (d : user_data) :
  let lines := split_on 10 (strip response) in
  exists found,
    parsed_templates response = Return found /\
    keys found = fold_left add_key (marker_keys lines) [] /\
    (forall before line label heading,
       lines = before ++ [line] ->
       marker_of line = Some (label, heading) ->
       dict_get (lit "template_" ++ label) found = Some (mkTemplate heading [])) /\
    parse_templates response =
      Return (if (3 <=? length found)%nat then found else default_templates) /\
    res (generate_story_templates str_title (Return response) genre d) =
      Return (if (3 <=? length found)%nat then found else default_templates).
Proof.
  cbv zeta.
  destruct (parsed_templates_total response) as (found & Hfound).
  exists found. split; [exact Hfound|].
  split; [exact (parsed_templates_keys response found Hfound)|].
  split.
  - intros before line label heading Hl Hm.
    exact (parsed_templates_last_marker response before line label heading
             found Hl Hm Hfound).
  - assert (Hp : parse_templates response =
                 Return (if (3 <=? length found)%nat then found
                         else default_templates))
      by (unfold parse_templates; now rewrite Hfound).
    split; [exact Hp|].
    rewrite <- Hp. apply generate_story_templates_returns.
Qed.

Lemma parse_templates_substitutes_fallback_witness :
  exists found,
    parsed_templates bare_markers = Return found /\
    keys found = [lit "template_1"; lit "template_2"; lit "template_3"] /\
    dict_get (lit "template_3") found = Some (mkTemplate (lit "C") []) /\
    parse_templates bare_markers = Return found.
Proof.
  destruct (parse_templates_substitutes_fallback ascii_title bare_markers
              (lit "fantasy") cleared) as (found & Hf & Hk & Hlast & Hp & _).
  exists found. split; [exact Hf|]. split; [rewrite Hk; vm_compute; reflexivity|].
  split.
  - apply (Hlast [lit "TEMPLATE 1: A"; lit "TEMPLATE 2: B"] (lit "TEMPLATE 3: C")
             (lit "3") (lit "C")); vm_compute; reflexivity.
  - rewrite Hp. replace (length found) with (length (keys found))
      by apply length_map.
    rewrite Hk. vm_compute. reflexivity.
Defined.

(** *** Runs on concrete inputs *)

Example lit_ascii :
  lit "TEMPLATE 1: x" = [84; 69; 77; 80; 76; 65; 84; 69; 32; 49; 58; 32; 120].
Proof. reflexivity. Qed.

Example lit_newline : lit "a\nb" = [97; 10; 98].
Proof. reflexivity. Qed.

Example lit_emoji : lit "🧑 YOU" = [0x1F9D1; 32; 89; 79; 85].
Proof. reflexivity. Qed.

Example lit_sword : lit "⚔️" = [0x2694; 0xFE0F].
Proof. reflexivity. Qed.

Example encode_emoji :
  encode_utf8 (lit "📖 é") = Some [xf0; x9f; x93; x96; x20; xc3; xa9].
Proof. reflexivity. Qed.

Example encode_surrogate : encode_utf8 [0xD83D] = None.
Proof. reflexivity. Qed.

Example strip_ex : strip (lit "  a b \n") = lit "a b".
Proof. reflexivity. Qed.

Example split_on_ex : split_on 10 (lit "a\n\nb") = [lit "a"; []; lit "b"].
Proof. reflexivity. Qed.

Example split_once_ex :
  split_once 58 (lit "TEMPLATE 1: A: B") = [lit "TEMPLATE 1"; lit " A: B"].
Proof. reflexivity. Qed.

Example split_once_none : split_once 58 (lit "TEMPLATE") = [lit "TEMPLATE"].
Proof. reflexivity. Qed.

Example replace_ex :
  replace (lit "TEMPLATE") [] (lit "TEMPLATE 1TEMPLATE") = lit " 1".
Proof. reflexivity. Qed.

Example split_ws_ex : split_ws (lit "  two   words ") = [lit "two"; lit "words"].
Proof. reflexivity. Qed.

Example str_of_nat_ex : str_of_nat 0 = lit "0" /\ str_of_nat 120 = lit "120".
Proof. split; reflexivity. Qed.

Example ascii_title_ex : ascii_title (lit "scifi") = lit "Scifi".
Proof. reflexivity. Qed.

(** The scenario of the specification: one turn in adventure mode. *)
Example dragon_story_history :
  story_history dragon_story =
    Some [ mkMsg user (lit "I enter the cave");
           mkMsg assistant (lit "You see a dragon. A) Fight B) Flee") ] /\
  get_story_progress dragon_story = 1%nat /\
  last (sent (generate_story (Return (lit "You see a dragon. A) Fight B) Flee"))
                             (lit "I enter the cave") fantasy_adventure)) =
    Some (ReplyText
            (lit "You see a dragon. A) Fight B) Flee\n\n_Turn 1 • 8 words_")
            (Some [ [(lit "💾 Save Story", lit "save_story")];
                    [(lit "🔄 New Story", lit "new_story")];
                    [(lit "❓ Help", lit "show_help")] ]) true).
Proof. vm_compute. repeat split; reflexivity. Qed.

(** The scenario of the specification: the character Zed. *)
Example character_scenario :
  let d1 := final (receive_name (lit "Zed") cleared) in
  let d2 := final (receive_traits (lit "bold, sly") d1) in
  let r := receive_background (lit "A wandering exile seeking home") d2 in
  res r = Return ConversationHandler_END /\
  character_name (final r) = Some (lit "Zed") /\
  character_traits (final r) = Some (lit "bold, sly") /\
  character_background (final r) = Some (lit "A wandering exile seeking home") /\
  story_history (final r) = Some [].
Proof. vm_compute. repeat split; reflexivity. Qed.

(** The exported document of the one-turn story. *)
Example dragon_story_export :
  export_text dragon_story (history_of dragon_story) =
    lit "==================================================\n  🐉 Fantasy - 🎮 Adventure Mode\n  Turns: 1\n==================================================\n\n🧑 YOU (Turn 1):\nI enter the cave\n\n--------------------------------------------------\n\n📖 STORY:\nYou see a dragon. A) Fight B) Flee\n\n--------------------------------------------------\n\n\n==================================================\nTotal words: 12\nGenerated by StoryBot\n==================================================" /\
  Some (documents (sent (save_story dragon_story))) =
    (fun bytes => [bytes]) <$>
      encode_utf8 (export_text dragon_story (history_of dragon_story)).
Proof. vm_compute. split; reflexivity. Qed.

(** Markers that repeat a label overwrite each other: one entry is left
    and the fallback is returned. *)
Example same_label_markers_fall_back :
  parsed_templates same_label_markers =
    Return [(lit "template_1", mkTemplate (lit "C") (lit "c"))] /\
  parse_templates same_label_markers = Return default_templates.
Proof. vm_compute. split; reflexivity. Qed.

(** After the failed message was followed by a successful one, the old
    retry button submits the old text again. *)
Example stale_retry_resubmits :
  let d := final (generate_story (Return (lit "You see a dragon."))
                                 (lit "I light a torch") after_timeout) in
  story_history (final (retry_last (Return (lit "The cave is dark.")) d)) =
    Some [ mkMsg user (lit "I light a torch");
           mkMsg assistant (lit "You see a dragon.");
           mkMsg user (lit "I enter the cave");
           mkMsg assistant (lit "The cave is dark.") ].
Proof. vm_compute. reflexivity. Qed.

(** The traits step stores its text before it reads the name: on a
    dictionary without a name it raises with the traits written. *)
Example receive_traits_without_name :
  res (receive_traits (lit "brave") cleared) =
    Raise (mkExc KeyError (lit "'character_name'")) /\
  character_traits (final (receive_traits (lit "brave") cleared)) =
    Some (lit "brave").
Proof. vm_compute. split; reflexivity. Qed.

(** * Further properties of the code *)

(** *** Retrying *)

Lemma retry_last_nothing_pending (d : user_data) (llm : result pystr) :
  from_option truthy false (last_failed_message d) = false ->
  retry_last llm d =
    mkRun (Return tt) d
      [ Answer (Some (lit "Retrying... 🔄"));
        EditMessageText
          (lit "No message to retry. Please type a new message to continue!")
          None false ].
Proof. intros H. unfold retry_last. run_handler. rewrite H. reflexivity. Qed.

Lemma retry_last_success_run (d : user_data) (h : list msg)
    (last_message story_text : pystr) :
  story_history d = Some h ->
  last_failed_message d = Some last_message ->
  last_message <> [] ->
  let r := retry_last (Return story_text) d in
  res r = Return tt /\
  final r = set_last_failed_message None
              (set_story_history
                 (Some (h ++ [mkMsg user last_message; mkMsg assistant story_text])) d) /\
  llm_requests (sent r) =
    [(h ++ [mkMsg user last_message],
      build_system_prompt d (default (lit "adventure") (genre d))
                            (default (lit "guided") (mode d)), 500%nat)].
Proof.
  intros Hh Hl Hne. unfold retry_last.
  destruct d as [g m ts t sh cn ct cb lf]; cbn in Hh, Hl; subst sh lf.
  destruct last_message as [|c s]; [congruence|].
  run_handler. cbn [from_option truthy negb default]. run_handler.
  repeat split; try reflexivity.
  unfold set_last_failed_message, set_story_history; cbn.
  now rewrite <- app_assoc.
Qed.

Lemma retry_last_failure_run (d : user_data) (h : list msg)
    (last_message : pystr) (e : PyExc) :
  story_history d = Some h ->
  last_failed_message d = Some last_message ->
  last_message <> [] ->
  let r := retry_last (Raise e) d in
  res r = Return tt /\
  final r = d /\
  last (sent r) =
    Some (EditMessageText
            (lit "❌ *Still failed:* " ++ exc_str e ++ lit "\n\n"
               ++ lit "The AI service might be having issues. Try again or start fresh.")
            (Some [ [(lit "🔄 Try Again", lit "retry_last")];
                    [(lit "🆕 Give Up, New Story", lit "new_story")] ]) true).
Proof.
  intros Hh Hl Hne. unfold retry_last.
  destruct d as [g m ts t sh cn ct cb lf]; cbn in Hh, Hl; subst sh lf.
  destruct last_message as [|c s]; [congruence|].
  run_handler. cbn [from_option truthy negb default]. run_handler.
  erewrite pop_last_user_after_append by reflexivity. run_handler.
  repeat split; reflexivity.
Qed.

(** X1: a retry whose generation succeeds puts the pending text back as
    a user turn, adds the assistant turn after it, and removes the
    pending text. *)
Theorem retry_last_success_appends_and_clears (d : user_data) (h : list msg)
    (last_message story_text : pystr) :
  story_history d = Some h ->
  last_failed_message d = Some last_message ->
  last_message <> [] ->
  let r := retry_last (Return story_text) d in
  res r = Return tt /\
  story_history (final r) =
    Some (h ++ [mkMsg user last_message; mkMsg assistant story_text]) /\
  last_failed_message (final r) = None.
Proof.
  intros Hh Hl Hne. cbv zeta.
  destruct (retry_last_success_run d h last_message story_text Hh Hl Hne)
    as (Hres & -> & _).
  split; [exact Hres|]. split; reflexivity.
Qed.

Lemma retry_last_success_appends_and_clears_witness :
  let r := retry_last (Return (lit "The cave is dark.")) after_timeout in
  res r = Return tt /\
  story_history (final r) =
    Some ([] ++ [mkMsg user (lit "I enter the cave");
                 mkMsg assistant (lit "The cave is dark.")]) /\
  last_failed_message (final r) = None.
Proof.
  apply (retry_last_success_appends_and_clears after_timeout []
           (lit "I enter the cave") (lit "The cave is dark."));
    [reflexivity | reflexivity | vm_compute; discriminate].
Defined.

(** X2: a retry whose generation fails again leaves the whole
    dictionary as it was, pending text included, returns normally and
    shows [str(e)]; it can be repeated any number of times. *)
Theorem retry_last_failure_changes_nothing (d : user_data) (h : list msg)
    (last_message : pystr) (e : PyExc) :
  story_history d = Some h ->
  last_failed_message d = Some last_message ->
  last_message <> [] ->
  let r := retry_last (Raise e) d in
  res r = Return tt /\
  final r = d /\
  exists before after keyboard,
    last (sent r) = Some (EditMessageText (before ++ exc_str e ++ after)
                                          (Some keyboard) true).
Proof.
  intros Hh Hl Hne. cbv zeta.
  destruct (retry_last_failure_run d h last_message e Hh Hl Hne)
    as (Hres & Hfin & Hsent).
  split; [exact Hres|]. split; [exact Hfin|].
  rewrite Hsent. eexists. eexists. eexists. reflexivity.
Qed.

Lemma retry_last_failure_changes_nothing_witness :
  final (retry_last (Raise (mkExc Exception (lit "Connection error: reset")))
                    after_timeout) = after_timeout.
Proof.
  apply (retry_last_failure_changes_nothing after_timeout []
           (lit "I enter the cave")
           (mkExc Exception (lit "Connection error: reset")));
    [reflexivity | reflexivity | vm_compute; discriminate].
Defined.

(** X3: a message whose generation fails, followed by a retry that
    succeeds, leaves the session that the message would have left had it
    succeeded at once, and the retry asks the service the same
    question. *)
Theorem failure_then_retry_is_success (d : user_data)
    (user_message story_text : pystr) (e : PyExc) :
  user_message <> [] ->
  last_failed_message d = None ->
  let failed := generate_story (Raise e) user_message d in
  let retried := retry_last (Return story_text) (final failed) in
  let direct := generate_story (Return story_text) user_message d in
  res retried = Return tt /\
  final retried = final direct /\
  llm_requests (sent retried) = llm_requests (sent direct).
Proof.
  intros Hne Hl. cbv zeta.
  destruct (generate_story_failure d user_message e) as (_ & Hf & _).
  destruct (generate_story_success d user_message story_text) as (_ & Hs).
  cbv zeta in Hf, Hs.
  destruct (retry_last_success_run (final (generate_story (Raise e) user_message d))
              (history_of d) user_message story_text) as (Hres & Hfin & Hreq).
  { rewrite Hf. reflexivity. }
  { rewrite Hf. reflexivity. }
  { exact Hne. }
  cbv zeta in Hfin, Hreq. split; [exact Hres|]. split.
  - rewrite Hfin, Hs, Hf. unfold history_of, begin_story.
    destruct d as [g m ts t [h|] cn ct cb lf]; cbn in Hl; subst lf; reflexivity.
  - rewrite Hreq, Hf. unfold generate_story, history_of, begin_story.
    destruct d as [g m ts t [h|] cn ct cb lf]; run_handler; reflexivity.
Qed.

Lemma failure_then_retry_is_success_witness :
  final (retry_last (Return (lit "You see a dragon."))
           (final (generate_story (Raise (mkExc Exception (lit "Request timed out. Please try again.")))
                                  (lit "I enter the cave") fantasy_adventure)))
  = final (generate_story (Return (lit "You see a dragon."))
                          (lit "I enter the cave") fantasy_adventure).
Proof.
  apply (failure_then_retry_is_success fantasy_adventure (lit "I enter the cave")
           (lit "You see a dragon.")
           (mkExc Exception (lit "Request timed out. Please try again.")));
    [vm_compute; discriminate | reflexivity].
Defined.

(** *** What a story message touches *)

Lemma build_system_prompt_history (d : user_data) (h : option (list msg))
    (genre mode : pystr) :
  build_system_prompt (set_story_history h d) genre mode =
    build_system_prompt d genre mode.
Proof. reflexivity. Qed.

(** X4: in a started story, a story message changes nothing but the
    history and, on a failure, the pending text: genre, mode, templates,
    the chosen template and the character stay as they were, whatever
    the service does. *)
Theorem generate_story_frame (d : user_data) (llm : result pystr)
    (user_message : pystr) :
  is_Some (story_history d) ->
  let d' := final (generate_story llm user_message d) in
  genre d' = genre d /\ mode d' = mode d /\
  templates d' = templates d /\ template_ d' = template_ d /\
  character_name d' = character_name d /\
  character_traits d' = character_traits d /\
  character_background d' = character_background d.
Proof.
  intros [h Hh]. cbv zeta. destruct llm as [story_text|e].
  - destruct (generate_story_success d user_message story_text) as [_ ->].
    unfold begin_story. rewrite Hh. repeat split; reflexivity.
  - destruct (generate_story_failure d user_message e) as (_ & -> & _).
    unfold begin_story. rewrite Hh. repeat split; reflexivity.
Qed.

Lemma generate_story_frame_witness :
  let d' := final (generate_story (Return (lit "You see a dragon."))
                                  (lit "I enter the cave") fantasy_adventure) in
  genre d' = Some (lit "fantasy") /\ mode d' = Some (lit "adventure").
Proof.
  destruct (generate_story_frame fantasy_adventure
              (Return (lit "You see a dragon.")) (lit "I enter the cave"))
    as (Hg & Hm & _).
  - eexists. reflexivity.
  - cbv zeta. rewrite Hg, Hm. split; reflexivity.
Defined.

Lemma generate_story_request_run (d : user_data) (h : list msg)
    (llm : result pystr) (user_message : pystr) :
  story_history d = Some h ->
  llm_requests (sent (generate_story llm user_message d)) =
    [ (h ++ [mkMsg user user_message],
       build_system_prompt d (default (lit "adventure") (genre d))
                             (default (lit "guided") (mode d)),
       500%nat) ].
Proof.
  intros Hh. unfold generate_story.
  destruct d as [g m ts t sh cn ct cb lf]; cbn in Hh; subst sh.
  destruct llm as [story_text|e]; run_handler.
  - reflexivity.
  - erewrite pop_last_user_after_append by reflexivity. run_handler.
    reflexivity.
Qed.

(** X5: in a started story, the one request a story message makes
    carries the whole history with the new user turn at its end, the
    prompt of the stored genre and mode (adventure and guided where
    they are missing) and 500 tokens. *)
Theorem generate_story_request (d : user_data) (h : list msg)
    (llm : result pystr) (user_message : pystr) :
  story_history d = Some h ->
  llm_requests (sent (generate_story llm user_message d)) =
    [ (h ++ [mkMsg user user_message],
       build_system_prompt d (default (lit "adventure") (genre d))
                             (default (lit "guided") (mode d)),
       500%nat) ].
Proof. apply generate_story_request_run. Qed.

Lemma generate_story_request_witness :
  llm_requests (sent (generate_story (Return (lit "More")) (lit "go on") one_exchange)) =
    [ ([mkMsg user (lit "hi"); mkMsg assistant (lit "Hello")]
         ++ [mkMsg user (lit "go on")],
       build_system_prompt one_exchange
         (default (lit "adventure") (genre one_exchange))
         (default (lit "guided") (mode one_exchange)),
       500%nat) ].
Proof. apply generate_story_request. reflexivity. Defined.

Lemma user_turns_app (h l : list msg) :
  length (List.filter is_user (h ++ l)) =
    (length (List.filter is_user h) + length (List.filter is_user l))%nat.
Proof. now rewrite List.filter_app, length_app. Qed.

(** X6: the turn counter is the number of user turns: a successful
    message raises it by one, a failed one leaves it, and the status
    line sent before the generation shows the number this message would
    be. *)
Theorem generate_story_turn_counter (d : user_data) (user_message : pystr) :
  (forall story_text,
     get_story_progress (final (generate_story (Return story_text) user_message d))
       = S (get_story_progress d)) /\
  (forall e,
     get_story_progress (final (generate_story (Raise e) user_message d))
       = get_story_progress d) /\
  (forall llm, exists loading_msg,
     head (sent (generate_story llm user_message d)) =
       Some (ReplyText (loading_msg ++ lit "\n_Turn "
                          ++ str_of_nat (S (get_story_progress d)) ++ lit "_")
                       None true)).
Proof.
  repeat apply conj.
  - intros story_text.
    destruct (generate_story_success d user_message story_text) as [_ ->].
    unfold get_story_progress, history_of, begin_story.
    destruct d as [g m ts t [h|] cn ct cb lf];
      cbn [story_history set_story_history set_mode set_genre];
      cbv [default from_option id];
      rewrite ?user_turns_app; cbn [List.filter is_user msg_role length app];
      lia.
  - intros e.
    destruct (generate_story_failure d user_message e) as (_ & -> & _).
    unfold get_story_progress, history_of, begin_story.
    destruct d as [g m ts t [h|] cn ct cb lf]; reflexivity.
  - intros llm. unfold generate_story.
    destruct d as [g m ts t [h|] cn ct cb lf]; destruct llm as [s|e];
      run_handler;
      try (erewrite pop_last_user_after_append by reflexivity; run_handler);
      unfold get_story_progress;
      cbn [story_history set_story_history set_mode set_genre];
      cbv [default from_option id];
      rewrite ?user_turns_app; cbn [List.filter is_user msg_role length];
      rewrite ?Nat.add_1_r; eexists; reflexivity.
Qed.

(** *** Templates offered to the user *)

Lemma parse_templates_at_least_three (response : pystr) :
  exists T, parse_templates response = Return T /\ (3 <= length T)%nat.
Proof.
  destruct (parsed_templates_total response) as (found & Hfound).
  unfold parse_templates. rewrite Hfound. cbn [result_bind].
  destruct (3 <=? length found)%nat eqn:E; eexists; (split; [reflexivity|]).
  - now apply Nat.leb_le.
  - cbn. lia.
Qed.

Lemma generate_story_templates_run
    (str_title : pystr -> pystr) (llm : result pystr) (genre : pystr)
    (d : user_data) :
  let r := generate_story_templates str_title llm genre d in
  final r = d /\
  exists T, res r = Return T /\ (3 <= length T)%nat.
Proof.
  cbv zeta. destruct llm as [response|e].
  - destruct (generate_story_templates_returns str_title response genre d)
      as [-> ->].
    split; [reflexivity|]. apply parse_templates_at_least_three.
  - destruct (generate_story_templates_raises str_title e genre d) as [-> ->].
    split; [reflexivity|]. eexists. split; [reflexivity|]. cbn. lia.
Qed.

(** X7: whatever the service does -- an answer in the asked format, any
    other text, or an exception -- [generate_story_templates] returns
    at least three templates, never raises and does not touch the
    session. *)
Theorem generate_story_templates_at_least_three
    (str_title : pystr -> pystr) (llm : result pystr) (genre : pystr)
    (d : user_data) :
  let r := generate_story_templates str_title llm genre d in
  final r = d /\
  exists T, res r = Return T /\ (3 <= length T)%nat.
Proof. apply generate_story_templates_run. Qed.

Lemma show_templates_run (str_title : pystr -> pystr) (llm : result pystr)
    (d : user_data) :
  exists T,
    (3 <= length T)%nat /\
    res (generate_story_templates str_title llm
           (default (lit "adventure") (genre d)) d) = Return T /\
    res (show_templates str_title llm d) = Return tt /\
    final (show_templates str_title llm d) = set_templates (Some T) d /\
    (is_Some (dict_get (default (lit "adventure") (genre d)) GENRES) ->
     exists text,
       last (sent (show_templates str_title llm d)) =
         Some (EditMessageText text
                 (Some (List.map (fun '(key, tmpl) => [(title tmpl, lit "tmpl_" ++ key)])
                                 (take 3 T)
                        ++ [ [(lit "🔄 Generate New Templates", lit "use_template")];
                             [(lit "✍️ Write My Own", lit "start_now")];
                             [(lit "⬅️ Back", lit "mode_" ++ default (lit "guided") (mode d))] ]))
                 true)).
Proof.
  destruct (generate_story_templates_run str_title llm
              (default (lit "adventure") (genre d)) d) as (Hfin & T & Hres & Hlen).
  exists T. split; [exact Hlen|]. split; [exact Hres|].
  unfold show_templates. run_handler.
  destruct (generate_story_templates str_title llm
              (default (lit "adventure") (genre d)) d) as [r d1 out] eqn:E.
  cbn [res final] in Hfin, Hres. subst r d1.
  destruct (dict_get (default (lit "adventure") (genre d)) GENRES) as [label|];
    run_handler.
  - split; [reflexivity|]. split; [reflexivity|]. intros _.
    eexists. rewrite last_cons_cons, app_comm_cons, last_snoc. reflexivity.
  - split; [reflexivity|]. split; [reflexivity|]. intros [? [=]].
Qed.

(** X8: [show_templates] never raises and always leaves at least three
    templates in the session, those [generate_story_templates] returned;
    when the genre has a label, it offers the first three of them as
    buttons whose data is [tmpl_] followed by the key, above the three
    navigation buttons. *)
Theorem show_templates_offers_three (str_title : pystr -> pystr)
    (llm : result pystr) (d : user_data) :
  let r := show_templates str_title llm d in
  res r = Return tt /\
  exists T,
    (3 <= length T)%nat /\
    final r = set_templates (Some T) d /\
    (is_Some (dict_get (default (lit "adventure") (genre d)) GENRES) ->
     exists text rows,
       last (sent r) = Some (EditMessageText text (Some rows) true) /\
       length rows = 6%nat /\
       take 3 rows =
         List.map (fun '(key, tmpl) => [(title tmpl, lit "tmpl_" ++ key)]) (take 3 T)).
Proof.
  cbv zeta.
  destruct (show_templates_run str_title llm d)
    as (T & Hlen & _ & Hres & Hfin & Hkb).
  split; [exact Hres|]. exists T. split; [exact Hlen|]. split; [exact Hfin|].
  intros Hg. destruct (Hkb Hg) as (text & Hlast).
  eexists. eexists. split; [exact Hlast|].
  assert (Hl3 : length (take 3 T) = 3%nat) by (rewrite length_take; lia).
  split.
  - rewrite length_app, length_map, Hl3. reflexivity.
  - rewrite take_app_length'; [reflexivity|]. now rewrite length_map.
Qed.

(** *** Button data read back by the handlers *)

Lemma replace_from_skip (old new p s : pystr) :
  replace_from old new (length p) (p ++ s) = replace_from old new 0 s.
Proof.
  induction p as [|c p IH]; [reflexivity|].
  destruct s as [|c' s']; cbn [app length replace_from]; exact IH.
Qed.

Lemma replace_absent (old new s : pystr) :
  occurs old s = false -> replace old new s = s.
Proof.
  unfold replace. induction s as [|c s IH]; [reflexivity|].
  cbn [occurs replace_from]. intros H. apply orb_false_iff in H as [H1 H2].
  rewrite H1. f_equal. apply IH, H2.
Qed.

Lemma replace_prefix (o : N) (old key : pystr) :
  occurs (o :: old) key = false ->
  replace (o :: old) [] ((o :: old) ++ key) = key.
Proof.
  intros H. unfold replace. cbn [app replace_from].
  assert (Hs : startswith (o :: old) (o :: old ++ key) = true).
  { clear H. change (o :: old ++ key) with ((o :: old) ++ key).
    induction (o :: old) as [|a l IH]; [reflexivity|].
    cbn. now rewrite N.eqb_refl. }
  rewrite Hs. cbn [app].
  replace (length (o :: old) - 1)%nat with (length old) by (cbn; lia).
  rewrite replace_from_skip.
  apply (replace_absent (o :: old) [] key H).
Qed.

Lemma template_selected_run (d : user_data) (T : pydict template)
    (key : pystr) (tmpl : template) :
  templates d = Some T ->
  dict_get key T = Some tmpl ->
  occurs (lit "tmpl_") key = false ->
  res (template_selected (lit "tmpl_" ++ key) d) = Return tt /\
  final (template_selected (lit "tmpl_" ++ key) d) =
    set_story_history (Some []) (set_template (Some tmpl) d).
Proof.
  intros HT Hk Ho. unfold template_selected.
  change (lit "tmpl_") with (116 :: (109 :: 112 :: 108 :: [95])) in *.
  rewrite (replace_prefix _ _ key Ho).
  run_handler. rewrite HT. run_handler. rewrite Hk. run_handler.
  split; reflexivity.
Qed.

(** X9: pressing the button of a stored template, whose data is [tmpl_]
    followed by the template's key, makes that template the story's
    premise and starts the story with an empty history, provided the key
    does not itself contain [tmpl_]. *)
Theorem template_selected_picks_template (d : user_data) (T : pydict template)
    (key : pystr) (tmpl : template) :
  templates d = Some T ->
  dict_get key T = Some tmpl ->
  occurs (lit "tmpl_") key = false ->
  let r := template_selected (lit "tmpl_" ++ key) d in
  res r = Return tt /\
  template_ (final r) = Some tmpl /\
  story_history (final r) = Some [] /\
  templates (final r) = Some T.
Proof.
  intros HT Hk Ho. cbv zeta.
  destruct (template_selected_run d T key tmpl HT Hk Ho) as [-> ->].
  repeat split; try reflexivity. exact HT.
Qed.

Lemma template_selected_picks_template_witness :
  let r := template_selected (lit "tmpl_" ++ lit "template_2")
             (set_templates (Some default_templates) cleared) in
  res r = Return tt /\
  template_ (final r) =
    Some (mkTemplate (lit "New Horizons") (lit "A new challenge appears...")) /\
  story_history (final r) = Some [] /\
  templates (final r) = Some default_templates.
Proof.
  apply (template_selected_picks_template
           (set_templates (Some default_templates) cleared) default_templates
           (lit "template_2")); reflexivity.
Defined.

(** X10: a template button pressed when the session holds no templates,
    or no template under that key, raises [KeyError]; the session is
    left unchanged and nothing but the answer to the button is sent. *)
Theorem template_selected_missing_key (d : user_data) (data : pystr) :
  from_option (fun T => dict_get (replace (lit "tmpl_") [] data) T) None
              (templates d) = None ->
  let r := template_selected data d in
  (exists e, res r = Raise e /\ exc_class e = KeyError) /\
  final r = d /\
  sent r = [Answer (Some (lit "Template selected! ✨"))].
Proof.
  intros H. unfold template_selected. run_handler.
  destruct (templates d) as [T|]; run_handler.
  - cbn in H. rewrite H. run_handler.
    split; [eexists; split; reflexivity|]. split; reflexivity.
  - split; [eexists; split; reflexivity|]. split; reflexivity.
Qed.

Lemma template_selected_missing_key_witness :
  final (template_selected (lit "tmpl_template_1") one_exchange) = one_exchange.
Proof.
  apply (template_selected_missing_key one_exchange (lit "tmpl_template_1")).
  reflexivity.
Defined.

(** A key that contains [tmpl_] cannot be selected: the handler removes
    every occurrence from the data before the lookup. *)
Example template_selected_key_with_prefix_inside :
  let T := [(lit "template_tmpl_x", mkTemplate (lit "A") (lit "a"))] in
  exists e,
    res (template_selected (lit "tmpl_" ++ lit "template_tmpl_x")
           (set_templates (Some T) cleared)) = Raise e /\
    e = key_error (lit "template_x").
Proof. eexists. split; vm_compute; reflexivity. Qed.

(** *** What a run of a handler preserves *)

Lemma alternating_snoc_exchange (h : list msg) (x y : pystr) :
  alternating h = true ->
  alternating (h ++ [mkMsg user x; mkMsg assistant y]) = true.
Proof.
  enough (H : (alternating h = true ->
               alternating (h ++ [mkMsg user x; mkMsg assistant y]) = true) /\
              (forall m, alternating (m :: h) = true ->
               alternating (m :: h ++ [mkMsg user x; mkMsg assistant y]) = true))
    by apply H.
  induction h as [|a h [IH1 IH2]]; split.
  - reflexivity.
  - intros m. discriminate.
  - apply IH2.
  - intros m. cbn [alternating app].
    intros H. apply andb_true_iff in H as [H1 H2]. rewrite H1. cbn [andb].
    apply IH1, H2.
Qed.

Lemma session_ok_same (d d' : user_data) :
  story_history d' = story_history d ->
  last_failed_message d' = last_failed_message d ->
  templates d' = templates d ->
  session_ok d -> session_ok d'.
Proof.
  unfold session_ok, history_of. intros -> -> ->. exact id.
Qed.

Lemma session_ok_restart (d d' : user_data) :
  story_history d' = Some [] ->
  templates d' = templates d ->
  session_ok d -> session_ok d'.
Proof.
  unfold session_ok, history_of. intros -> -> (_ & _ & H).
  split; [reflexivity|]. split; [eauto | exact H].
Qed.

Lemma session_ok_cleared : session_ok cleared.
Proof.
  unfold session_ok, history_of. cbn.
  split; [reflexivity|]. split; [intros [? [=]] | intros ? [=]].
Qed.

Lemma session_ok_generate_story (d : user_data) (llm : result pystr)
    (text : pystr) :
  session_ok d -> session_ok (final (generate_story llm text d)).
Proof.
  intros (Ha & Hp & Ht). destruct llm as [story_text|e].
  - destruct (generate_story_success d text story_text) as [_ ->].
    unfold session_ok, history_of, begin_story in *.
    destruct d as [g m ts t [h|] cn ct cb lf]; cbn in *;
      (split; [|split; [eauto | exact Ht]]).
    + now apply alternating_snoc_exchange.
    + reflexivity.
  - destruct (generate_story_failure d text e) as (_ & -> & _).
    unfold session_ok, history_of, begin_story in *.
    destruct d as [g m ts t [h|] cn ct cb lf]; cbn in *;
      (split; [|split; [eauto | exact Ht]]); [exact Ha | reflexivity].
Qed.

Lemma retry_last_unchanged (d : user_data) (llm : result pystr) :
  story_history d = None -> final (retry_last llm d) = d.
Proof.
  intros Hh. unfold retry_last. run_handler.
  destruct (negb _); run_handler; [reflexivity|]. rewrite Hh. reflexivity.
Qed.

Lemma session_ok_retry_last (d : user_data) (llm : result pystr) :
  session_ok d -> session_ok (final (retry_last llm d)).
Proof.
  intros Hok.
  destruct (last_failed_message d) as [[|c s]|] eqn:El.
  - rewrite (retry_last_nothing_pending d llm);
      [first [assumption | reflexivity] | now rewrite El].
  - destruct (story_history d) as [h|] eqn:Eh.
    + destruct llm as [story_text|e].
      * destruct (retry_last_success_run d h (c :: s) story_text Eh El)
          as (_ & -> & _); [discriminate|].
        destruct Hok as (Ha & _ & Ht). unfold session_ok, history_of in *.
        rewrite Eh in Ha. cbn [default] in Ha.
        destruct d as [g m ts t sh cn ct cb lf]; cbn in *.
        split; [now apply alternating_snoc_exchange|].
        split; [eauto | exact Ht].
      * destruct (retry_last_failure_run d h (c :: s) e Eh El)
          as (_ & -> & _); [discriminate | exact Hok].
    + now rewrite retry_last_unchanged.
  - rewrite (retry_last_nothing_pending d llm);
      [first [assumption | reflexivity] | now rewrite El].
Qed.

Lemma session_ok_after (str_title : pystr -> pystr) (e : event) (d : user_data) :
  session_ok d -> session_ok (after str_title e d).
Proof.
  intros Hok. destruct e; cbn [after]; try exact Hok.
  - (* genre_selected *)
    apply (session_ok_same d); [| | |exact Hok];
      unfold genre_selected; run_handler;
      destruct (dict_get _ GENRES); reflexivity.
  - (* mode_selected *)
    apply (session_ok_same d); [| | |exact Hok];
      unfold mode_selected; run_handler;
      destruct (genre d); run_handler; try reflexivity;
      destruct (dict_get _ STORY_MODES); reflexivity.
  - (* show_templates *)
    destruct (show_templates_run str_title llm d) as (T & Hlen & _ & _ & -> & _).
    destruct Hok as (Ha & Hp & _). unfold session_ok, history_of in *.
    cbn [story_history last_failed_message templates set_templates].
    split; [exact Ha|]. split; [exact Hp|]. now intros ? [= <-].
  - (* template_selected *)
    unfold template_selected. run_handler.
    destruct (templates d) as [T|] eqn:ET; run_handler; [|exact Hok].
    destruct (dict_get _ T); run_handler; [|exact Hok].
    apply (session_ok_restart d); [reflexivity | reflexivity | exact Hok].
  - (* receive_name *)
    apply (session_ok_same d); [| | |exact Hok];
      unfold receive_name; destruct (_ || _); reflexivity.
  - (* receive_traits *)
    apply (session_ok_same d); [| | |exact Hok];
      unfold receive_traits; destruct (_ <? _)%nat; run_handler;
      try reflexivity; destruct (character_name d); reflexivity.
  - (* receive_background *)
    unfold receive_background. destruct (_ <? _)%nat; [exact Hok|].
    apply (session_ok_restart d); [| |exact Hok]; run_handler;
      destruct (character_name d); run_handler; try reflexivity;
      destruct (character_traits d); reflexivity.
  - (* start_now *)
    apply (session_ok_restart d); [reflexivity | reflexivity | exact Hok].
  - apply session_ok_generate_story, Hok.
  - apply session_ok_retry_last, Hok.
  - now rewrite save_story_keeps_session.
  - (* new_story *)
    unfold new_story. run_handler.
    destruct (_ && _); [exact Hok | exact session_ok_cleared].
  - exact session_ok_cleared.
Qed.

(** X11: one run of any handler keeps the shape of the session, whatever
    the input and whether the service returns a text or raises, as long
    as the calls to the messaging transport return: the history stays
    made of exchanges (a user turn followed by the assistant's), a
    pending text is held only beside a history, and the templates held
    are at least three. *)
Theorem handlers_preserve_session_ok (str_title : pystr -> pystr)
    (e : event) (d : user_data) :
  session_ok d -> session_ok (after str_title e d).
Proof. apply session_ok_after. Qed.

Lemma handlers_preserve_session_ok_witness :
  session_ok one_exchange /\
  session_ok (after ascii_title
                (GenerateStory (Return (lit "You see a dragon."))
                               (lit "I enter the cave"))
                one_exchange).
Proof.
  assert (H : session_ok one_exchange).
  { split; [reflexivity|]. split.
    - intros _. eexists. reflexivity.
    - intros T. discriminate. }
  split; [exact H|].
  apply (handlers_preserve_session_ok ascii_title), H.
Defined.


(** A pending text without a history makes the retry raise. *)
Example retry_last_without_history_raises :
  res (retry_last (Return (lit "x")) (set_last_failed_message (Some (lit "hi")) cleared))
    = Raise (key_error (lit "story_history")).
Proof. vm_compute. reflexivity. Qed.

Lemma export_turns_exchanges (h : list msg) :
  (forall k, alternating h = true ->
     export_turns (2 * k + 1) h = export_exchanges (S k) h) /\
  (forall m k, alternating (m :: h) = true ->
     export_turns (2 * k + 1) (m :: h) = export_exchanges (S k) (m :: h)).
Proof.
  induction h as [|a h [IH1 IH2]]; split.
  - reflexivity.
  - intros m k. discriminate.
  - apply IH2.
  - intros m k. cbn [alternating]. intros H.
    apply andb_true_iff in H as [H1 H2]. apply andb_true_iff in H1 as [Hu Ha].
    apply negb_true_iff in Ha.
    cbn [export_turns export_exchanges]. rewrite Hu, Ha.
    replace ((2 * k + 1 + 1) / 2)%nat with (S k)
      by (replace (2 * k + 1 + 1)%nat with (S k * 2)%nat by lia;
          now rewrite Nat.div_mul).
    replace (S (S (2 * k + 1))) with (2 * S k + 1)%nat by lia.
    rewrite (IH1 (S k) H2). rewrite <- !app_assoc. reflexivity.
Qed.

Lemma alternating_user_turns (h : list msg) :
  (alternating h = true -> (2 * length (List.filter is_user h))%nat = length h) /\
  (forall m, alternating (m :: h) = true ->
     (2 * length (List.filter is_user (m :: h)))%nat = length (m :: h)).
Proof.
  induction h as [|a h [IH1 IH2]]; split.
  - reflexivity.
  - intros m. discriminate.
  - apply IH2.
  - intros m. cbn [alternating]. intros H.
    apply andb_true_iff in H as [H1 H2]. apply andb_true_iff in H1 as [Hu Ha].
    apply negb_true_iff in Ha.
    cbn [List.filter length]. rewrite Hu, Ha. cbn [length].
    specialize (IH1 H2). lia.
Qed.

(** X13: when the history is made of exchanges, the export numbers the
    user's turns 1, 2, 3, ... in order, each followed by the story's
    answer, and the turn counter is half the length of the history. *)
Theorem alternating_export_numbers_turns (d : user_data) :
  alternating (history_of d) = true ->
  export_turns 1 (history_of d) = export_exchanges 1 (history_of d) /\
  (2 * get_story_progress d)%nat = length (history_of d).
Proof.
  intros Ha. split.
  - apply (proj1 (export_turns_exchanges (history_of d)) 0%nat Ha).
  - apply (proj1 (alternating_user_turns (history_of d)) Ha).
Qed.

Lemma alternating_export_numbers_turns_witness :
  alternating (history_of dragon_story) = true /\
  export_turns 1 (history_of dragon_story) =
    export_exchanges 1 (history_of dragon_story) /\
  (2 * get_story_progress dragon_story)%nat = length (history_of dragon_story).
Proof.
  split; [reflexivity|].
  apply (alternating_export_numbers_turns dragon_story). reflexivity.
Defined.

(** *** Export: edges *)

(** X14: with no story -- the key absent or the history empty --
    [save_story] sends no document: it answers the button, says that
    there is nothing to save, and leaves the session as it is. *)
Theorem save_story_nothing_to_save (d : user_data) :
  history_of d = [] ->
  save_story d =
    mkRun (Return tt) d
      [ Answer (Some (lit "Preparing your story... 📚"));
        EditMessageText (lit "No story to save yet! Start writing first.")
                        None false ].
Proof.
  unfold history_of. intros H. unfold save_story.
  destruct d as [g m ts t [[|m0 h]|] cn ct cb lf]; cbn in H;
    try discriminate; reflexivity.
Qed.

Lemma save_story_nothing_to_save_witness :
  documents (sent (save_story fantasy_adventure)) = [].
Proof.
  rewrite (save_story_nothing_to_save fantasy_adventure eq_refl). reflexivity.
Defined.

(** X15: with a story whose text can be encoded, [save_story] sends
    exactly one document, the UTF-8 bytes of the formatted story, under
    the name [story_<genre>_<n>turns.txt] where the genre is the stored
    key (adventure when missing) and [n] the number of user turns, and
    ends with the confirmation. *)
Theorem save_story_sends_one_document (d : user_data) (m0 : msg)
    (h : list msg) (bytes : list byte) :
  story_history d = Some (m0 :: h) ->
  encode_utf8 (export_text d (m0 :: h)) = Some bytes ->
  let r := save_story d in
  res r = Return tt /\
  final r = d /\
  documents (sent r) = [bytes] /\
  (exists caption,
     In (ReplyDocument bytes
           (lit "story_" ++ default (lit "adventure") (genre d) ++ lit "_"
              ++ str_of_nat (get_story_progress d) ++ lit "turns.txt")
           caption true) (sent r)) /\
  last (sent r) = Some (ReplyText (lit "✅ Story saved successfully!") None false).
Proof.
  intros Hh He. cbv zeta. split; [|split; [apply save_story_keeps_session|]].
  - now apply (save_story_document d m0 h bytes).
  - unfold save_story. run_handler. rewrite Hh. run_handler. rewrite He.
    run_handler. split; [reflexivity|]. split; [|reflexivity].
    eexists. right. right. left. reflexivity.
Qed.

Lemma save_story_sends_one_document_witness :
  exists bytes, documents (sent (save_story dragon_story)) = [bytes].
Proof.
  destruct (encode_utf8 (export_text dragon_story (history_of dragon_story)))
    as [bytes|] eqn:E; [|vm_compute in E; discriminate].
  exists bytes.
  apply (save_story_sends_one_document dragon_story
           (mkMsg user (lit "I enter the cave"))
           [mkMsg assistant (lit "You see a dragon. A) Fight B) Flee")] bytes);
    [reflexivity | exact E].
Defined.

(** X16: when the formatted story cannot be encoded (a lone surrogate in
    a turn), [save_story] raises [UnicodeEncodeError] after announcing
    the export: no document is sent and the session is unchanged. *)
Theorem save_story_unencodable (d : user_data) (m0 : msg) (h : list msg) :
  story_history d = Some (m0 :: h) ->
  encode_utf8 (export_text d (m0 :: h)) = None ->
  let r := save_story d in
  (exists e, res r = Raise e /\ exc_class e = UnicodeEncodeError) /\
  final r = d /\
  documents (sent r) = [] /\
  last (sent r) =
    Some (EditMessageText (lit "💾 Saving your story...\n_Formatting document..._")
                          None true).
Proof.
  intros Hh He. cbv zeta. split; [|split; [apply save_story_keeps_session|]].
  - unfold save_story. run_handler. rewrite Hh. run_handler. rewrite He.
    run_handler. eexists. split; reflexivity.
  - unfold save_story. run_handler. rewrite Hh. run_handler. rewrite He.
    run_handler. split; reflexivity.
Qed.

Lemma save_story_unencodable_witness :
  documents (sent (save_story surrogate_story)) = [].
Proof.
  apply (save_story_unencodable surrogate_story (mkMsg user (lit "hi"))
           [mkMsg assistant [0xD83D]]); [reflexivity | vm_compute; reflexivity].
Defined.

(** *** The generation call: what leaves it *)

Lemma call_llm_unfold (post : json -> result json) (messages : list msg)
    (system_prompt : pystr) (max_tokens : nat) :
  call_llm post messages system_prompt max_tokens =
    match result_bind (post (llm_payload messages system_prompt max_tokens))
                      response_content with
    | Return text => Return text
    | Raise e =>
        match exc_class e with
        | RequestsTimeout =>
            Raise (mkExc Exception (lit "Request timed out. Please try again."))
        | RequestsRequestException =>
            Raise (mkExc Exception (lit "Connection error: " ++ exc_str e))
        | KeyError =>
            Raise (mkExc Exception (lit "Unexpected response format from AI."))
        | _ => Raise e
        end
    end.
Proof. reflexivity. Qed.

(** X17: whatever the HTTP layer does, [call_llm] never lets a
    [KeyError] or an exception of [requests] out: what it raises is a
    plain [Exception], or an [IndexError], [TypeError] or other built-in
    error passed through. *)
Theorem call_llm_never_raises_key_or_requests_error
    (post : json -> result json) (messages : list msg)
    (system_prompt : pystr) (max_tokens : nat) (e : PyExc) :
  call_llm post messages system_prompt max_tokens = Raise e ->
  exc_class e <> KeyError /\
  exc_class e <> RequestsTimeout /\
  exc_class e <> RequestsRequestException.
Proof.
  rewrite call_llm_unfold.
  destruct (result_bind _ response_content) as [text|e0]; [discriminate|].
  destruct (exc_class e0) eqn:E; intros [= <-]; cbn [exc_class];
    rewrite ?E; repeat split; discriminate.
Qed.

Lemma call_llm_never_raises_key_or_requests_error_witness :
  exc_class (mkExc IndexError (lit "list index out of range")) <> KeyError.
Proof.
  apply (call_llm_never_raises_key_or_requests_error no_choices [] [] 500
           (mkExc IndexError (lit "list index out of range"))).
  vm_compute. reflexivity.
Defined.

(** X18: the failures [call_llm] handles each leave it as an
    [Exception] with a message of the program's own: a timeout, any
    other [requests] error (whose text is appended), and a body in which
    a key of the chain is missing; and when the chain finds the content,
    that content is returned. *)
Theorem call_llm_handled_outcomes
    (post : json -> result json) (messages : list msg)
    (system_prompt : pystr) (max_tokens : nat) :
  let request := post (llm_payload messages system_prompt max_tokens) in
  let call := call_llm post messages system_prompt max_tokens in
  (forall reason, request = Raise (mkExc RequestsTimeout reason) ->
     call = Raise (mkExc Exception (lit "Request timed out. Please try again."))) /\
  (forall reason, request = Raise (mkExc RequestsRequestException reason) ->
     call = Raise (mkExc Exception (lit "Connection error: " ++ reason))) /\
  (forall body e, request = Return body ->
     response_content body = Raise e -> exc_class e = KeyError ->
     call = Raise (mkExc Exception (lit "Unexpected response format from AI."))) /\
  (forall body text, request = Return body ->
     response_content body = Return text -> call = Return text).
Proof.
  cbv zeta. rewrite call_llm_unfold. repeat apply conj.
  - now intros reason ->.
  - now intros reason ->.
  - intros body e -> He Hc. cbn [result_bind]. now rewrite He, Hc.
  - intros body text -> Ht. cbn [result_bind]. now rewrite Ht.
Qed.

Lemma call_llm_handled_outcomes_witness :
  call_llm (fun _ => Return (JObj [(lit "choices", JArr [JObj []])])) [] [] 500
    = Raise (mkExc Exception (lit "Unexpected response format from AI.")).
Proof.
  destruct (call_llm_handled_outcomes
              (fun _ => Return (JObj [(lit "choices", JArr [JObj []])])) [] [] 500)
    as (_ & _ & H & _).
  apply (H _ (key_error (lit "message")) eq_refl); vm_compute; reflexivity.
Defined.

(** *** Keyboards *)

(** X19: cutting a list of buttons into rows of two loses and reorders
    nothing, and every row has one or two buttons. *)
Theorem rows_of_two_layout {A} (buttons : list A) :
  concat (rows_of_two buttons) = buttons /\
  Forall (fun row => (1 <= length row <= 2)%nat) (rows_of_two buttons).
Proof.
  enough (H : (concat (rows_of_two buttons) = buttons /\
               Forall (fun row => (1 <= length row <= 2)%nat) (rows_of_two buttons)) /\
              (forall a, concat (rows_of_two (a :: buttons)) = a :: buttons /\
               Forall (fun row => (1 <= length row <= 2)%nat)
                      (rows_of_two (a :: buttons))))
    by apply H.
  induction buttons as [|b l [IH1 IH2]]; split.
  - split; [reflexivity | constructor].
  - intros a. split; [reflexivity|]. repeat constructor.
  - apply IH2.
  - intros a. destruct IH1 as [Hc Hf]. cbn [rows_of_two concat app].
    split; [now rewrite Hc|]. constructor; [cbn; lia | exact Hf].
Qed.

(** *** Setup paths *)

(** X20: three valid answers to the character creation, given in order,
    walk the conversation through its states to the end and leave
    exactly the three stripped texts as the character and an empty
    history; nothing else of the session changes. *)
Theorem character_creation_path (d : user_data) (name traits background : pystr) :
  (2 <= length (strip name) <= 30)%nat ->
  (3 <= length (strip traits))%nat ->
  (10 <= length (strip background))%nat ->
  let r1 := receive_name name d in
  let r2 := receive_traits traits (final r1) in
  let r3 := receive_background background (final r2) in
  res r1 = Return WAITING_TRAITS /\
  res r2 = Return WAITING_BACKGROUND /\
  res r3 = Return ConversationHandler_END /\
  final r3 =
    set_story_history (Some [])
      (set_character_background (Some (strip background))
         (set_character_traits (Some (strip traits))
            (set_character_name (Some (strip name)) d))).
Proof.
  intros Hn Ht Hb. cbv zeta.
  destruct (receive_name_accepts d name Hn) as [Hr1 Hf1]. rewrite Hf1.
  destruct (receive_traits_accepts (set_character_name (Some (strip name)) d)
              traits Ht) as [Hf2 Hr2]. rewrite Hf2.
  destruct (receive_background_accepts
              (set_character_traits (Some (strip traits))
                 (set_character_name (Some (strip name)) d)) background Hb)
    as [Hf3 Hr3].
  split; [exact Hr1|]. split; [apply Hr2; eexists; reflexivity|].
  split; [apply Hr3; eexists; reflexivity | exact Hf3].
Qed.

Lemma character_creation_path_witness :
  character_name
    (final (receive_background (lit "A wandering exile seeking home")
       (final (receive_traits (lit "bold, sly")
          (final (receive_name (lit " Zed ") one_exchange))))))
  = Some (lit "Zed").
Proof.
  destruct (character_creation_path one_exchange (lit " Zed ") (lit "bold, sly")
              (lit "A wandering exile seeking home")) as (_ & _ & _ & ->);
    [vm_compute; lia | vm_compute; lia | vm_compute; lia | reflexivity].
Defined.

(** X21: for every genre and every mode of the two tables, pressing the
    genre's button, then the mode's button, then "Start Immediately"
    never raises and leaves exactly that genre and mode with an empty
    history.  Everything else is kept, so a character, a chosen template
    or a pending text of an earlier story are still there. *)
Theorem start_now_path (d : user_data) (genre_key label mode_key : pystr)
    (info : mode_info) :
  In (genre_key, label) GENRES ->
  In (mode_key, info) STORY_MODES ->
  let r1 := genre_selected (lit "genre_" ++ genre_key) d in
  let r2 := mode_selected (lit "mode_" ++ mode_key) (final r1) in
  let r3 := start_now (final r2) in
  res r1 = Return tt /\ res r2 = Return tt /\ res r3 = Return tt /\
  final r3 =
    set_story_history (Some [])
      (set_mode (Some mode_key) (set_genre (Some genre_key) d)).
Proof.
  intros Hg Hm. cbv zeta.
  cbn [In GENRES STORY_MODES] in Hg, Hm.
  destruct d as [g m ts t sh cn ct cb lf].
  repeat (destruct Hg as [Hg|Hg]; [injection Hg as <- <-|]); [..|destruct Hg];
    (repeat (destruct Hm as [Hm|Hm]; [injection Hm as <- <-|]); [..|destruct Hm]);
    vm_compute; repeat split; reflexivity.
Qed.

Lemma start_now_path_witness :
  final (start_now
           (final (mode_selected (lit "mode_" ++ lit "cowrite")
                     (final (genre_selected (lit "genre_" ++ lit "horror") named_zed)))))
  = set_story_history (Some [])
      (set_mode (Some (lit "cowrite")) (set_genre (Some (lit "horror")) named_zed)).
Proof.
  apply (start_now_path named_zed (lit "horror") (lit "👻 Horror") (lit "cowrite")
           (mkMode (lit "✍️ Co-Write") (lit "Take turns writing")));
    vm_compute; tauto.
Defined.

(** X22: the two selection handlers store what the button carried
    before they look it up.  A genre that is not in the table stays
    stored while the handler raises a [KeyError] having sent only the
    answer; so does a mode pressed when no genre is stored or that is
    not in the table. *)
Theorem selection_stored_before_lookup (d : user_data) (data : pystr) :
  final (genre_selected data d) =
    set_genre (Some (replace (lit "genre_") [] data)) d /\
  final (mode_selected data d) =
    set_mode (Some (replace (lit "mode_") [] data)) d /\
  (dict_get (replace (lit "genre_") [] data) GENRES = None ->
   (exists e, res (genre_selected data d) = Raise e /\ exc_class e = KeyError) /\
   sent (genre_selected data d) = [Answer None]) /\
  (genre d = None ->
   (exists e, res (mode_selected data d) = Raise e /\ exc_class e = KeyError) /\
   sent (mode_selected data d) = [Answer None]) /\
  (dict_get (replace (lit "mode_") [] data) STORY_MODES = None ->
   is_Some (genre d) ->
   (exists e, res (mode_selected data d) = Raise e /\ exc_class e = KeyError) /\
   sent (mode_selected data d) = [Answer None]).
Proof.
  repeat apply conj.
  - unfold genre_selected. run_handler.
    destruct (dict_get _ GENRES); reflexivity.
  - unfold mode_selected. run_handler.
    destruct (genre d); run_handler; [|reflexivity].
    destruct (dict_get _ STORY_MODES); reflexivity.
  - intros H. unfold genre_selected. run_handler. rewrite H.
    split; [eexists; split; reflexivity | reflexivity].
  - intros H. unfold mode_selected. run_handler. rewrite H.
    split; [eexists; split; reflexivity | reflexivity].
  - intros H [g Hg]. unfold mode_selected. run_handler. rewrite Hg.
    run_handler. rewrite H.
    split; [eexists; split; reflexivity | reflexivity].
Qed.

Lemma selection_stored_before_lookup_witness :
  genre (final (genre_selected (lit "genre_western") cleared)) = Some (lit "western") /\
  (exists e, res (genre_selected (lit "genre_western") cleared) = Raise e /\
             exc_class e = KeyError) /\
  sent (genre_selected (lit "genre_western") cleared) = [Answer None].
Proof.
  destruct (selection_stored_before_lookup cleared (lit "genre_western"))
    as (Hf & _ & Hr & _).
  split.
  - rewrite Hf. reflexivity.
  - apply Hr. vm_compute. reflexivity.
Defined.

(** X23: the later steps of the character creation write before they
    read.  With no name in the session, a valid traits text is stored
    and the handler raises [KeyError] without a reply; a valid
    background is stored and the history is emptied, and the handler
    raises likewise. *)
Theorem character_steps_without_name (d : user_data) (text : pystr) :
  character_name d = None ->
  ((3 <= length (strip text))%nat ->
   receive_traits text d =
     mkRun (Raise (key_error (lit "character_name")))
           (set_character_traits (Some (strip text)) d) []) /\
  ((10 <= length (strip text))%nat ->
   receive_background text d =
     mkRun (Raise (key_error (lit "character_name")))
           (set_story_history (Some [])
              (set_character_background (Some (strip text)) d)) []).
Proof.
  intros Hn. split; intros H.
  - unfold receive_traits. apply Nat.ltb_ge in H. rewrite H.
    run_handler. rewrite Hn. reflexivity.
  - unfold receive_background. apply Nat.ltb_ge in H. rewrite H.
    run_handler. rewrite Hn. reflexivity.
Qed.

Lemma character_steps_without_name_witness :
  story_history (final (receive_background (lit "A wandering exile") one_exchange))
    = Some [].
Proof.
  destruct (character_steps_without_name one_exchange (lit "A wandering exile")
              eq_refl) as [_ H].
  rewrite H; [reflexivity | vm_compute; lia].
Defined.

(** X24: the welcome, the help texts, the way back to the genres, the
    entry and the cancelling of the character creation only send
    messages: they leave the whole session as it is.  In particular
    [/start] does not end a running story and [/cancel] keeps what the
    earlier steps stored. *)
Theorem informational_handlers_keep_session (d : user_data) :
  (res (start d) = Return tt /\ final (start d) = d) /\
  (res (back_to_genres d) = Return tt /\ final (back_to_genres d) = d) /\
  (res (start_character_creation d) = Return WAITING_NAME /\
   final (start_character_creation d) = d) /\
  (res (help_command d) = Return tt /\ final (help_command d) = d) /\
  (res (cancel d) = Return ConversationHandler_END /\ final (cancel d) = d) /\
  (res (show_help d) = Return tt /\ final (show_help d) = d) /\
  (res (close_help d) = Return tt /\ final (close_help d) = d) /\
  (exists text, sent (start d) = [ReplyText text (Some genre_keyboard) true]) /\
  (exists text,
     sent (back_to_genres d) =
       [Answer None; EditMessageText text (Some genre_keyboard) true]).
Proof.
  repeat apply conj; try reflexivity; eexists; reflexivity.
Qed.

(** X25: without a story -- the key absent or the history empty --
    [new_story] does not ask: it empties the session at once and shows
    the genres. *)
Theorem new_story_without_story_resets (d : user_data) :
  history_of d = [] ->
  res (new_story d) = Return tt /\
  final (new_story d) = cleared /\
  last (sent (new_story d)) =
    Some (EditMessageText (lit "🎭 *Choose a genre for your new story:*")
                          (Some genre_keyboard) true).
Proof.
  unfold history_of. intros Hh.
  destruct d as [g m ts t [h|] cn ct cb lf]; cbn in Hh; subst;
    unfold new_story; run_handler; repeat split; reflexivity.
Qed.

Lemma new_story_without_story_resets_witness :
  final (new_story named_zed) = cleared.
Proof. apply (new_story_without_story_resets named_zed). reflexivity. Defined.

(** *** Lines the parser passes over *)

Lemma flush_template_longer (T F : pydict template) (c : option pystr)
    (p q : list pystr) :
  parse_inv (mkParse T c p) ->
  flush_template (mkParse T c p) = Return F ->
  q <> [] ->
  flush_template (mkParse T c q) = flush_template (mkParse F c q).
Proof.
  unfold parse_inv, flush_template.
  cbn [current_template current_premise templates_].
  intros Hinv HF Hq. destruct q as [|l q]; [congruence|].
  destruct c as [k|]; [|destruct p; congruence].
  destruct Hinv as [t Ht]. rewrite Ht in *.
  destruct (truthy k); destruct p as [|l0 p]; cbv iota in *; try congruence.
  - injection HF as <-. now rewrite Ht.
  - injection HF as <-. rewrite dict_get_set_same. cbn [title].
    now rewrite dict_set_set.
Qed.

Lemma same_outcome_refl (st : parse_state) : parse_inv st -> same_outcome st st.
Proof. intros H. repeat split; assumption. Qed.

Lemma parse_inv_flushed (st : parse_state) (F : pydict template) :
  parse_inv st -> flush_template st = Return F ->
  parse_inv (mkParse F (current_template st) (current_premise st)).
Proof.
  intros Hinv HF. destruct (flush_template_total st Hinv) as (F' & HF' & Hkeys).
  rewrite HF in HF'. injection HF' as <-.
  unfold parse_inv in *. cbn [current_template templates_].
  destruct (current_template st); [apply Hkeys, Hinv | exact I].
Qed.

Lemma same_outcome_step (st st' : parse_state) (line : pystr) :
  same_outcome st st' ->
  exists s s',
    parse_line st line = Return s /\ parse_line st' line = Return s' /\
    same_outcome s s'.
Proof.
  intros (Hc & Hp & Hf & Hinv & Hinv').
  destruct (flush_template_total st Hinv) as (F & HF & _).
  assert (HF' : flush_template st' = Return F) by now rewrite <- Hf.
  unfold parse_line. cbv zeta.
  destruct (startswith (lit "TEMPLATE") (strip line)).
  - rewrite HF, HF'. cbn [result_bind].
    destruct (split_once 58 (strip line)) as [|p0 [|p1 [|? ?]]];
      try (eexists; eexists; split; [reflexivity|]; split; [reflexivity|];
           rewrite <- Hc, <- Hp; apply same_outcome_refl;
           now apply parse_inv_flushed).
    eexists. eexists. split; [reflexivity|]. split; [reflexivity|].
    apply same_outcome_refl. unfold parse_inv.
    cbn [current_template templates_]. rewrite dict_get_set_same. eauto.
  - rewrite <- Hc, <- Hp.
    destruct (truthy (strip line) && from_option truthy false (current_template st)).
    + eexists. eexists. split; [reflexivity|]. split; [reflexivity|].
      destruct st as [T c p], st' as [T' c' p'].
      cbn [current_template current_premise templates_] in *. subst c' p'.
      repeat split; try assumption. 
      rewrite (flush_template_longer T F c p (p ++ [strip line]) Hinv HF)
        by (destruct p; discriminate).
      rewrite (flush_template_longer T' F c p (p ++ [strip line]) Hinv' HF')
        by (destruct p; discriminate).
      reflexivity.
    + eexists. eexists. split; [reflexivity|]. split; [reflexivity|].
      repeat split; assumption.
Qed.

Lemma same_outcome_lines (lines : list pystr) (st st' : parse_state) :
  same_outcome st st' ->
  exists s s',
    parse_lines st lines = Return s /\ parse_lines st' lines = Return s' /\
    same_outcome s s'.
Proof.
  revert st st'. induction lines as [|l lines IH]; intros st st' H.
  - eexists. eexists. split; [reflexivity|]. split; [reflexivity | exact H].
  - destruct (same_outcome_step st st' l H) as (s & s' & Hs & Hs' & Hsame).
    cbn [parse_lines]. rewrite Hs, Hs'. cbn [result_bind]. apply IH, Hsame.
Qed.

Lemma stray_line_same_outcome (st : parse_state) (line : pystr) :
  parse_inv st -> stray line = true ->
  exists s, parse_line st line = Return s /\ same_outcome st s.
Proof.
  intros Hinv Hs. unfold stray in Hs. apply andb_true_iff in Hs as [Hstart Hm].
  apply negb_true_iff, bool_decide_eq_false_1 in Hm.
  destruct (flush_template_total st Hinv) as (F & HF & _).
  pose proof (parse_inv_flushed st F Hinv HF) as HinvF.
  assert (Hline : parse_line st line =
                  Return (mkParse F (current_template st) (current_premise st))).
  { unfold parse_line, marker_of in *. cbv zeta in *. rewrite Hstart in *.
    rewrite HF. cbn [result_bind].
    destruct (split_once 58 (strip line)) as [|p0 [|p1 [|? ?]]]; try reflexivity.
    exfalso. apply Hm. eauto. }
  eexists. split; [exact Hline|].
  repeat split; try assumption; cbn [current_template current_premise].
  destruct st as [T c p]. cbn [current_template current_premise] in *.
  destruct p as [|l p].
  - unfold flush_template in *. cbn [current_template current_premise templates_] in *.
    destruct c; exact HF.
  - rewrite HF.
    rewrite <- (flush_template_longer T F c (l :: p) (l :: p) Hinv HF)
      by discriminate.
    symmetry. exact HF.
Qed.

(** X26: a line that starts with [TEMPLATE] but has no colon is passed
    over by the parser: it neither ends the seed being read nor enters
    its premise, so the text parses as it does without the line. *)
Theorem parse_templates_skips_stray_line
    (response response' : pystr) (before after_ : list pystr) (line : pystr) :
  split_on 10 (strip response) = before ++ line :: after_ ->
  split_on 10 (strip response') = before ++ after_ ->
  stray line = true ->
  parse_templates response = parse_templates response'.
Proof.
  intros Hr Hr' Hs. unfold parse_templates, parsed_templates. cbv zeta.
  rewrite Hr, Hr'. f_equal.
  rewrite !parse_lines_app.
  destruct (parse_lines_total before (mkParse [] None []) I) as (st & -> & Hinv).
  cbn [result_bind parse_lines].
  destruct (stray_line_same_outcome st line Hinv Hs) as (s & -> & Hsame).
  cbn [result_bind].
  destruct (same_outcome_lines after_ st s Hsame) as (s1 & s2 & -> & -> & Hsame').
  cbn [result_bind]. destruct Hsame' as (_ & _ & H & _). now rewrite H.
Qed.

Lemma parse_templates_skips_stray_line_witness :
  parse_templates templates_with_stray_line =
    parse_templates templates_without_stray_line.
Proof.
  apply (parse_templates_skips_stray_line
           templates_with_stray_line templates_without_stray_line
           [lit "TEMPLATE 1: The Cave"; lit "A dark cave."]
           [lit "It calls you."; lit "TEMPLATE 2: Lost Star"; lit "A ship drifts.";
            lit "TEMPLATE 3: Old Debt"; lit "Pay up."]
           (lit "TEMPLATES are fun"));
    vm_compute; reflexivity.
Defined.

Example stray_line_parse :
  parse_templates templates_with_stray_line =
    Return [ (lit "template_1", mkTemplate (lit "The Cave") (lit "A dark cave. It calls you."));
             (lit "template_2", mkTemplate (lit "Lost Star") (lit "A ship drifts."));
             (lit "template_3", mkTemplate (lit "Old Debt") (lit "Pay up.")) ].
Proof. vm_compute. reflexivity. Qed.

(** *** A cancelled character creation *)

Lemma build_system_prompt_protagonist (d : user_data) (genre mode name : pystr) :
  character_name d = Some name ->
  exists after_,
    build_system_prompt d genre mode =
      prompt_head genre mode
      ++ protagonist_sentence name
           (default (lit "mysterious") (character_traits d))
           (default (lit "an adventurer") (character_background d))
      ++ after_.
Proof.
  intros Hn. unfold build_system_prompt, prompt_head, protagonist_sentence.
  cbv zeta. rewrite Hn.
  destruct (template_ d) as [tmpl|].
  - exists (lit "\n\nStory premise: " ++ premise tmpl
            ++ lit "\n\nBe descriptive, engaging, and immersive. Keep the user engaged!").
    repeat (rewrite <- app_assoc; cbn [app]). reflexivity.
  - exists (lit "\n\nBe descriptive, engaging, and immersive. Keep the user engaged!").
    repeat (rewrite <- app_assoc; cbn [app]). reflexivity.
Qed.

(** X27: a character creation cancelled after the name keeps the name:
    once the story is started, every generation request describes a
    protagonist of that name, with the traits and background stored
    earlier or else ['mysterious'] and ['an adventurer']. *)
Theorem cancelled_character_stays_in_prompt (d : user_data)
    (name user_message : pystr) (llm : result pystr) :
  (2 <= length (strip name) <= 30)%nat ->
  let d1 := final (receive_name name d) in
  let d2 := final (cancel d1) in
  let d3 := final (start_now d2) in
  character_name d3 = Some (strip name) /\
  exists after_,
    llm_requests (sent (generate_story llm user_message d3)) =
      [ ([mkMsg user user_message],
         prompt_head (default (lit "adventure") (genre d))
                     (default (lit "guided") (mode d))
         ++ protagonist_sentence (strip name)
              (default (lit "mysterious") (character_traits d))
              (default (lit "an adventurer") (character_background d))
         ++ after_,
         500%nat) ].
Proof.
  intros Hn. cbv zeta.
  destruct (receive_name_accepts d name Hn) as [_ ->].
  change (final (cancel (set_character_name (Some (strip name)) d)))
    with (set_character_name (Some (strip name)) d).
  change (final (start_now (set_character_name (Some (strip name)) d)))
    with (set_story_history (Some []) (set_character_name (Some (strip name)) d)).
  split; [reflexivity|].
  rewrite (generate_story_request_run
             (set_story_history (Some []) (set_character_name (Some (strip name)) d))
             [] llm user_message eq_refl).
  destruct (build_system_prompt_protagonist
              (set_story_history (Some []) (set_character_name (Some (strip name)) d))
              (default (lit "adventure") (genre d))
              (default (lit "guided") (mode d)) (strip name) eq_refl)
    as (after_ & Hprompt).
  exists after_.
  cbn [character_traits character_background set_story_history
       set_character_name] in Hprompt.
  rewrite <- Hprompt. reflexivity.
Qed.

Lemma cancelled_character_stays_in_prompt_witness :
  character_name
    (final (start_now (final (cancel (final (receive_name (lit "Zed") cleared))))))
  = Some (strip (lit "Zed")).
Proof.
  apply (cancelled_character_stays_in_prompt cleared (lit "Zed") []
           (Return [])).
  vm_compute. lia.
Defined.

(** *** Offered templates can be selected *)

Lemma dict_get_In {V} (k : pystr) (v : V) (d : pydict V) :
  List.NoDup (keys d) -> In (k, v) d -> dict_get k d = Some v.
Proof.
  induction d as [|[k' v'] d IH]; cbn; [tauto|].
  intros Hnd [H|H].
  - injection H as -> ->. now rewrite bool_decide_eq_true_2.
  - apply List.NoDup_cons_iff in Hnd as [Hk Hnd].
    destruct (bool_decide (k' = k)) eqn:E.
    + apply bool_decide_eq_true_1 in E. subst k'. exfalso. apply Hk.
      change k with (fst (k, v)). now apply List.in_map.
    + now apply IH.
Qed.

Lemma flush_template_NoDup (st : parse_state) (T : pydict template) :
  flush_template st = Return T ->
  List.NoDup (keys (templates_ st)) -> List.NoDup (keys T).
Proof.
  unfold flush_template. intros H Hnd.
  destruct (current_template st) as [k|]; [|now injection H as <-].
  destruct (current_premise st); [now injection H as <-|].
  destruct (truthy k); [|now injection H as <-].
  destruct (dict_get k (templates_ st)); [|discriminate].
  injection H as <-. now apply NoDup_keys_dict_set.
Qed.

Lemma parse_line_NoDup (st st' : parse_state) (line : pystr) :
  parse_line st line = Return st' ->
  List.NoDup (keys (templates_ st)) -> List.NoDup (keys (templates_ st')).
Proof.
  unfold parse_line. cbv zeta. intros H Hnd.
  destruct (startswith (lit "TEMPLATE") (strip line)).
  - destruct (flush_template st) as [T|e] eqn:EF; [|discriminate].
    pose proof (flush_template_NoDup st T EF Hnd) as HT.
    cbn [result_bind] in H.
    destruct (split_once 58 (strip line)) as [|p0 [|p1 [|? ?]]];
      injection H as <-; cbn [templates_]; try exact HT.
    now apply NoDup_keys_dict_set.
  - destruct (_ && _); injection H as <-; exact Hnd.
Qed.

Lemma parse_lines_NoDup (lines : list pystr) (st st' : parse_state) :
  parse_lines st lines = Return st' ->
  List.NoDup (keys (templates_ st)) -> List.NoDup (keys (templates_ st')).
Proof.
  revert st. induction lines as [|l lines IH]; intros st H Hnd; cbn in H.
  - now injection H as <-.
  - destruct (parse_line st l) as [s|e] eqn:E; [|discriminate].
    cbn [result_bind] in H. apply (IH s H). exact (parse_line_NoDup st s l E Hnd).
Qed.

Lemma three_keys_NoDup {V} (a b c : V) :
  List.NoDup (keys [(lit "template_1", a); (lit "template_2", b); (lit "template_3", c)]).
Proof.
  cbn. repeat constructor; cbn; intros H;
    repeat (destruct H as [H|H]; [vm_compute in H; discriminate H|]); exact H.
Qed.

Lemma parse_templates_NoDup (response : pystr) (T : pydict template) :
  parse_templates response = Return T -> List.NoDup (keys T).
Proof.
  unfold parse_templates, parsed_templates. cbv zeta.
  destruct (parse_lines _ _) as [st|e] eqn:E; [|discriminate].
  cbn [result_bind].
  destruct (flush_template st) as [F|e] eqn:EF; [|discriminate].
  cbn [result_bind]. intros H.
  destruct (3 <=? length F)%nat; injection H as <-; [|apply three_keys_NoDup].
  apply (flush_template_NoDup st F EF).
  apply (parse_lines_NoDup _ _ st E). constructor.
Qed.

(** X28: every template that [show_templates] leaves in the session can
    be selected through its button: pressing [tmpl_<key>] makes the
    template stored under that key the premise and starts the story,
    provided the key does not itself contain [tmpl_].  The keys of the
    stored templates are pairwise different. *)
Theorem offered_template_can_be_selected (str_title : pystr -> pystr)
    (llm : result pystr) (d : user_data) (T : pydict template)
    (key : pystr) (tmpl : template) :
  templates (final (show_templates str_title llm d)) = Some T ->
  In (key, tmpl) T ->
  occurs (lit "tmpl_") key = false ->
  let d1 := final (show_templates str_title llm d) in
  let r := template_selected (lit "tmpl_" ++ key) d1 in
  List.NoDup (keys T) /\
  res r = Return tt /\
  template_ (final r) = Some tmpl /\
  story_history (final r) = Some [].
Proof.
  intros HT Hin Ho. cbv zeta.
  assert (Hnd : List.NoDup (keys T)).
  { destruct (show_templates_run str_title llm d) as (T' & _ & Hgen & _ & Hfin & _).
    rewrite Hfin in HT. injection HT as ->.
    destruct llm as [response|e].
    - destruct (generate_story_templates_returns str_title response
                  (default (lit "adventure") (genre d)) d) as [Hr _].
      rewrite Hgen in Hr. symmetry in Hr.
      exact (parse_templates_NoDup response T Hr).
    - destruct (generate_story_templates_raises str_title e
                  (default (lit "adventure") (genre d)) d) as [Hr _].
      rewrite Hgen in Hr. injection Hr as ->. apply three_keys_NoDup. }
  split; [exact Hnd|].
  destruct (template_selected_run (final (show_templates str_title llm d)) T key tmpl
              HT (dict_get_In key tmpl T Hnd Hin) Ho) as [-> ->].
  repeat split; reflexivity.
Qed.

Lemma offered_template_can_be_selected_witness :
  template_
    (final (template_selected (lit "tmpl_" ++ lit "template_2")
              (final (show_templates ascii_title (Return three_templates)
                        fantasy_adventure))))
  = Some (mkTemplate (lit "Lost Star") (lit "A ship drifts.")).
Proof.
  apply (offered_template_can_be_selected ascii_title (Return three_templates)
           fantasy_adventure
           [ (lit "template_1", mkTemplate (lit "The Cave") (lit "A dark cave. It calls you."));
             (lit "template_2", mkTemplate (lit "Lost Star") (lit "A ship drifts."));
             (lit "template_3", mkTemplate (lit "Old Debt") (lit "Pay up.")) ]
           (lit "template_2") (mkTemplate (lit "Lost Star") (lit "A ship drifts.")));
    [vm_compute; reflexivity | right; left; reflexivity | vm_compute; reflexivity].
Defined.
